(** * sdjson: a type-indexed registry of JSON encoder functions

    Shallow embedding of [sdjson.py].  The module is a thin layer over
    Python's [json] and [functools.singledispatch]:

    - [dump] is a [singledispatch] generic function; its [registry] (an
      insertion-ordered dict keyed by class) is the process-wide table of
      encoder functions, and [dump.register] adds to it;
    - [_CustomEncoder.default] is the hook that walks [dump.registry];
    - [dumps] picks the shared [_default_encoder] or builds a one-off
      encoder and calls its [encode];
    - [JSONEncoder] re-declares [default], [encode] and [iterencode] of
      [json.JSONEncoder] only to attach documentation.

    The parts of the standard library that the module calls are modelled
    next to the code that calls them, each under the name it has in
    Python. *)

From Stdlib Require Import List String Ascii Bool ZArith Lia.
From Stdlib Require Import DecimalString.
Import ListNotations.
Local Open Scope string_scope.
Local Open Scope list_scope.

Set Warnings "-register-all".

(** ** Classes *)

Module PyType.

(** A user-defined class is its name together with the linearisation of
    its proper ancestors, most specific first; [object] closes every
    linearisation and is left implicit. *)
Inductive uclass : Type :=
| UClass (name : string) (supers : list uclass).

(** The classes that can occur as the type of a value or as a registry
    key: the root, the built-in types that JSON represents natively, and
    user-defined classes. *)
Inductive pytype : Type :=
| object
| NoneType
| bool_
| int_
| str_
| list_
| dict_
| User (c : uclass).

Definition uname (c : uclass) : string :=
  match c with UClass n _ => n end.

Definition usupers (c : uclass) : list uclass :=
  match c with UClass _ s => s end.

Fixpoint uclass_eqb (a b : uclass) : bool :=
  match a, b with
  | UClass n s, UClass m t =>
      String.eqb n m &&
      (fix go (xs ys : list uclass) : bool :=
         match xs, ys with
         | [], [] => true
         | x :: xs', y :: ys' => uclass_eqb x y && go xs' ys'
         | _, _ => false
         end) s t
  end.

Definition eqb (a b : pytype) : bool :=
  match a, b with
  | object, object => true
  | NoneType, NoneType => true
  | bool_, bool_ => true
  | int_, int_ => true
  | str_, str_ => true
  | list_, list_ => true
  | dict_, dict_ => true
  | User c, User d => uclass_eqb c d
  | _, _ => false
  end.

(** [cls.__mro__] *)
Definition mro (t : pytype) : list pytype :=
  match t with
  | object => [object]
  | bool_ => [bool_; int_; object]
  | User c => User c :: map User (usupers c) ++ [object]
  | t => [t; object]
  end.

(** [issubclass(c, t)] for classes without a metaclass hook *)
Definition issubclass (c t : pytype) : bool :=
  existsb (eqb t) (mro c).

(** [t is object] *)
Definition is_object (t : pytype) : bool :=
  match t with object => true | _ => false end.

Definition name (t : pytype) : string :=
  match t with
  | object => "object"
  | NoneType => "NoneType"
  | bool_ => "bool"
  | int_ => "int"
  | str_ => "str"
  | list_ => "list"
  | dict_ => "dict"
  | User c => uname c
  end.

End PyType.

Import PyType.

(** Induction on a class together with the classes of its linearisation. *)
Section UclassInd.

Variable P : uclass -> Prop.
Hypothesis step : forall n s, Forall P s -> P (UClass n s).

Fixpoint uclass_nested_ind (c : uclass) : P c :=
  match c with
  | UClass n s =>
      step n s
        ((fix supers_ind (l : list uclass) : Forall P l :=
            match l with
            | [] => Forall_nil P
            | x :: r => Forall_cons x (uclass_nested_ind x) (supers_ind r)
            end) s)
  end.

End UclassInd.

(** ** Values and exceptions *)

(** Python values: the natively representable ones as trees, and instances
    of user-defined classes with their identity ([id(o)]), class and
    attributes.  Strings are sequences of code points below 256. *)
Inductive value : Type :=
| VNone
| VBool (b : bool)
| VInt (n : Z)
| VStr (s : string)
| VList (xs : list value)
| VDict (items : list (value * value))
| VObj (oid : nat) (c : uclass) (attrs : list (string * value)).

(** [type(o)] *)
Definition type_of (o : value) : pytype :=
  match o with
  | VNone => NoneType
  | VBool _ => bool_
  | VInt _ => int_
  | VStr _ => str_
  | VList _ => list_
  | VDict _ => dict_
  | VObj _ c _ => User c
  end.

Definition isinstance (o : value) (t : pytype) : bool :=
  issubclass (type_of o) t.

(** [isinstance(o, str)] *)
Definition is_str (o : value) : bool :=
  match o with VStr _ => true | _ => false end.

(** [getattr(o, a)] on an instance *)
Fixpoint assoc (a : string) (l : list (string * value)) : option value :=
  match l with
  | [] => None
  | (k, v) :: rest => if String.eqb a k then Some v else assoc a rest
  end.

Inductive type_error : Type :=
| NotSerializable (cname : string)
    (* Object of type ... is not JSON serializable *)
| UnexpectedKeyword (fn kw : string)
    (* fn() got an unexpected keyword argument 'kw' *)
| TooManyPositional (given : nat)
    (* f() takes 1 positional argument but n were given *)
| MissingPositional (arg : string)
    (* f() missing 1 required positional argument *)
| BadKey (cname : string)
    (* keys must be str, int, float, bool or None *)
| NotComparable
    (* '<' not supported between instances of ... *)
| NotCallable.

Inductive exn : Type :=
| TypeError (why : type_error)
| ValueError (msg : string)
| AttributeError (attr : string)
| RecursionError.

Inductive result (A : Type) : Type :=
| Ok (a : A)
| Raise (e : exn).

Arguments Ok {A} a.
Arguments Raise {A} e.

Definition bind {A B : Type} (r : result A) (k : A -> result B) : result B :=
  match r with
  | Ok a => k a
  | Raise e => Raise e
  end.

Notation "x <- c ;; k" := (bind c (fun x => k))
  (at level 61, c at next level, right associativity).

Definition is_TypeError {A : Type} (r : result A) : Prop :=
  exists why, r = Raise (TypeError why).

(** ** Output sinks and keyword options *)

(** A text sink: the chunks passed to [fp.write], oldest first. *)
Definition stream : Type := list string.

Definition write (fp : stream) (chunk : string) : stream := fp ++ [chunk].

(** What has been written, as one text. *)
Definition contents (fp : stream) : string := String.concat "" fp.

(** The three encoder classes of the module's hierarchy:
    [json.JSONEncoder], the re-declared [sdjson.JSONEncoder] and
    [_CustomEncoder]. *)
Inductive encoder_class : Type :=
| json_JSONEncoder
| JSONEncoder
| _CustomEncoder.

Inductive indent_t : Type :=
| IndentInt (n : nat)
| IndentStr (s : string).

(** ** The [singledispatch] registry

    [functools.singledispatch(func)] keeps a dict [registry] from classes
    to implementations, seeded with [registry[object] = func], and exposes
    it read-only as [dump.registry].  Python dicts iterate in insertion
    order; assigning to a key that is present keeps its position. *)

(** What can sit in the registry: the undecorated body of [dump], a
    function of [(obj, fp, **kwargs)], or a one-parameter encoder function
    [def f(obj)], the shape the module documents for encoders.  Functions
    of other signatures are outside the model. *)
Inductive callable : Type :=
| DumpBody
| Fn (f : value -> result value).

Definition registry : Type := list (pytype * callable).

(** [d[k] = v] *)
Fixpoint setitem (d : registry) (k : pytype) (v : callable) : registry :=
  match d with
  | [] => [(k, v)]
  | (k', v') :: rest =>
      if PyType.eqb k k' then (k', v) :: rest
      else (k', v') :: setitem rest k v
  end.

(** [d.get(k)] *)
Fixpoint getitem (d : registry) (k : pytype) : option callable :=
  match d with
  | [] => None
  | (k', v') :: rest => if PyType.eqb k k' then Some v' else getitem rest k
  end.

Definition keys (d : registry) : list pytype := map fst d.

(** The keys that iteration yields before it reaches the entry of [k]:
    all of them when [k] has no entry. *)
Fixpoint keys_before (k : pytype) (d : registry) : list pytype :=
  match d with
  | [] => []
  | (k', _) :: rest =>
      if PyType.eqb k k' then [] else k' :: keys_before k rest
  end.

(** The registry as [singledispatch] leaves it when the module has been
    imported. *)
Definition initial_registry : registry := [(object, DumpBody)].

(** [dump.register(cls)(func)]: [registry[cls] = func; return func]. *)
Definition register (cls : pytype) (func : callable) (reg : registry)
  : callable * registry :=
  (func, setitem reg cls func).

(** A run of registrations, oldest first. *)
Definition register_all (rs : list (pytype * callable)) (reg : registry)
  : registry :=
  fold_left (fun r e => snd (register (fst e) (snd e) r)) rs reg.

(** [functools._find_impl] for classes without abstract bases: the first
    class of the linearisation that has an entry. *)
Fixpoint _find_impl (linearisation : list pytype) (reg : registry)
  : option callable :=
  match linearisation with
  | [] => None
  | t :: rest =>
      match getitem reg t with
      | Some impl => Some impl
      | None => _find_impl rest reg
      end
  end.

(** [dump.dispatch(cls)] *)
Definition dispatch (reg : registry) (cls : pytype) : option callable :=
  match getitem reg cls with
  | Some impl => Some impl
  | None => _find_impl (mro cls) reg
  end.

(** [handler(o)] *)
Definition call1 (handler : callable) (o : value) : result value :=
  match handler with
  | Fn f => f o
  | DumpBody => Raise (TypeError (MissingPositional "fp"))
  end.

(** ** Keyword options and encoder instances *)

(** The keyword arguments of [dumps] and [json.dumps]; [kw] holds the
    names of any further keywords. *)
Record options : Type := {
  skipkeys : bool;
  ensure_ascii : bool;
  check_circular : bool;
  allow_nan : bool;
  cls : option encoder_class;
  indent : option indent_t;
  separators : option (string * string);
  default : option callable;
  sort_keys : bool;
  kw : list string
}.

(** The defaults of the signature of [dumps]. *)
Definition default_options : options := {|
  skipkeys := false;
  ensure_ascii := true;
  check_circular := true;
  allow_nan := true;
  cls := None;
  indent := None;
  separators := None;
  default := None;
  sort_keys := false;
  kw := []
|}.

(** The attributes of an encoder instance.  [self_default] is the
    instance attribute that [__init__] sets when a [default] function is
    passed; it shadows the [default] method of the class. *)
Record encoder : Type := {
  klass : encoder_class;
  self_skipkeys : bool;
  self_ensure_ascii : bool;
  self_check_circular : bool;
  self_allow_nan : bool;
  self_sort_keys : bool;
  self_indent : option indent_t;
  self_item_separator : string;
  self_key_separator : string;
  self_default : option callable
}.

(** The attribute assignments of [json.JSONEncoder.__init__]; the class
    attributes are [item_separator = ', '] and [key_separator = ': ']. *)
Definition init_attributes (k : encoder_class) (o : options) : encoder := {|
  klass := k;
  self_skipkeys := skipkeys o;
  self_ensure_ascii := ensure_ascii o;
  self_check_circular := check_circular o;
  self_allow_nan := allow_nan o;
  self_sort_keys := sort_keys o;
  self_indent := indent o;
  self_item_separator :=
    match separators o with
    | Some (item, _) => item
    | None => match indent o with Some _ => "," | None => ", " end
    end;
  self_key_separator :=
    match separators o with
    | Some (_, key) => key
    | None => ": "
    end;
  self_default := default o
|}.

(** [cls(skipkeys=..., ..., **kw)].  [sdjson.JSONEncoder.__init__] passes
    its arguments on to [json.JSONEncoder.__init__], which accepts the
    eight named keywords and no other. *)
Definition construct (k : encoder_class) (o : options) : result encoder :=
  match kw o with
  | [] => Ok (init_attributes k o)
  | extra :: _ => Raise (TypeError (UnexpectedKeyword "__init__" extra))
  end.

(** The module-level instance
    [_CustomEncoder(skipkeys=False, ensure_ascii=True, check_circular=True,
    allow_nan=True, indent=None, separators=None, default=None)];
    [sort_keys] is not passed and takes the default [False] of
    [json.JSONEncoder.__init__]. *)
Definition _default_encoder : encoder :=
  init_attributes _CustomEncoder {|
    skipkeys := false;
    ensure_ascii := true;
    check_circular := true;
    allow_nan := true;
    cls := None;
    indent := None;
    separators := None;
    default := None;
    sort_keys := false;
    kw := []
  |}.

(** ** Text of the leaves ([json.encoder]) *)

Module Text.

Local Open Scope string_scope.

Definition chr (n : nat) : string := String (ascii_of_nat n) "".

Definition quote : string := chr 34.
Definition backslash : string := chr 92.
Definition newline : string := chr 10.

Definition hex_digit (n : nat) : string :=
  match n with
  | 10 => "a" | 11 => "b" | 12 => "c" | 13 => "d" | 14 => "e" | 15 => "f"
  | _ => chr (48 + n)
  end.

(** ['\\u{0:04x}'.format(n)] for a code point below 256 *)
Definition u_escape (n : nat) : string :=
  backslash ++ "u00" ++ hex_digit (n / 16) ++ hex_digit (n mod 16).

(** One character under [ESCAPE_DCT]; with [ascii_only] the characters
    outside [' '..'~'] are escaped too ([ESCAPE_ASCII]), otherwise only
    the control characters ([ESCAPE]). *)
Definition escape_char (ascii_only : bool) (c : ascii) : string :=
  let n := nat_of_ascii c in
  if (n =? 92)%nat then backslash ++ backslash
  else if (n =? 34)%nat then backslash ++ quote
  else if (n =? 8)%nat then backslash ++ "b"
  else if (n =? 12)%nat then backslash ++ "f"
  else if (n =? 10)%nat then backslash ++ "n"
  else if (n =? 13)%nat then backslash ++ "r"
  else if (n =? 9)%nat then backslash ++ "t"
  else if (n <? 32)%nat || (ascii_only && (126 <? n)%nat) then u_escape n
  else String c "".

Fixpoint escape (ascii_only : bool) (s : string) : string :=
  match s with
  | EmptyString => ""
  | String c rest => escape_char ascii_only c ++ escape ascii_only rest
  end.

Definition encode_basestring_ascii (s : string) : string :=
  quote ++ escape true s ++ quote.

Definition encode_basestring (s : string) : string :=
  quote ++ escape false s ++ quote.

(** [int.__repr__] *)
Definition int_repr (n : Z) : string :=
  NilZero.string_of_int (Z.to_int n).

(** [s * n] *)
Fixpoint repeat_string (s : string) (n : nat) : string :=
  match n with
  | O => ""
  | S m => s ++ repeat_string s m
  end.

Definition join (chunks : list string) : string := String.concat "" chunks.

(** [for chunk in text], one character at a time *)
Definition characters (text : string) : list string :=
  map (fun c => String c "") (list_ascii_of_string text).

End Text.

(** ** The tree walk ([json.encoder._make_iterencode])

    Lists and dicts are finite trees here, so a reference cycle always
    passes through an instance handed to [_default]; the marker table
    therefore records instances only.  [fuel] bounds the nesting depth as
    the interpreter's recursion limit does. *)

Section MakeIterencode.

Variable _default : value -> result value.
Variable _encoder : string -> string.
Variable _indent : option string.
Variable _key_separator : string.
Variable _item_separator : string.
Variable _sort_keys : bool.
Variable _skipkeys : bool.

(** The branches of the walk that yield a single chunk. *)
Definition leaf_text (o : value) : option string :=
  match o with
  | VStr s => Some (_encoder s)
  | VNone => Some "null"
  | VBool true => Some "true"
  | VBool false => Some "false"
  | VInt n => Some (Text.int_repr n)
  | _ => None
  end.

(** The text of a dict key; [None] when the key is skipped. *)
Definition key_text (key : value) : result (option string) :=
  match key with
  | VStr s => Ok (Some s)
  | VBool true => Ok (Some "true")
  | VBool false => Ok (Some "false")
  | VNone => Ok (Some "null")
  | VInt n => Ok (Some (Text.int_repr n))
  | _ =>
      if _skipkeys then Ok None
      else Raise (TypeError (BadKey (PyType.name (type_of key))))
  end.

(** [a < b] on keys: strings by code points, [int] and [bool] as
    numbers, anything else is not ordered. *)
Definition key_lt (a b : value) : result bool :=
  let num (v : value) : option Z :=
    match v with
    | VInt n => Some n
    | VBool true => Some 1%Z
    | VBool false => Some 0%Z
    | _ => None
    end in
  match a, b with
  | VStr s, VStr t => Ok (String.ltb s t)
  | _, _ =>
      match num a, num b with
      | Some x, Some y => Ok (Z.ltb x y)
      | _, _ => Raise (TypeError NotComparable)
      end
  end.

Fixpoint insert_item (kv : value * value) (sorted : list (value * value))
  : result (list (value * value)) :=
  match sorted with
  | [] => Ok [kv]
  | kv' :: rest =>
      lt <- key_lt (fst kv) (fst kv') ;;
      if lt then Ok (kv :: kv' :: rest)
      else (rest' <- insert_item kv rest ;; Ok (kv' :: rest'))
  end.

(** [sorted(dct.items())] *)
Fixpoint sorted_items (items : list (value * value))
  : result (list (value * value)) :=
  match items with
  | [] => Ok []
  | kv :: rest =>
      rest' <- sorted_items rest ;;
      insert_item kv rest'
  end.

(** ['\n' + _indent * level], when indenting *)
Definition newline_indent (level : nat) : option string :=
  match _indent with
  | Some ind => Some (Text.newline ++ Text.repeat_string ind level)%string
  | None => None
  end.

Definition or_empty (s : option string) : string :=
  match s with Some t => t | None => "" end.

Definition chunk_of (s : option string) : list string :=
  match s with Some t => [t] | None => [] end.

Section Children.

(** The recursive call on a child, one level of fuel down. *)
Variable walk : option (list nat) -> value -> nat -> result (list string).
Variable markers : option (list nat).

Fixpoint list_items (level : nat) (separator buf : string)
         (lst : list value) : result (list string) :=
  match lst with
  | [] => Ok []
  | v :: rest =>
      here <- match leaf_text v with
              | Some text => Ok [(buf ++ text)%string]
              | None => chunks <- walk markers v level ;; Ok (buf :: chunks)
              end ;;
      more <- list_items level separator separator rest ;;
      Ok (here ++ more)
  end.

Definition _iterencode_list (lst : list value) (level : nat)
  : result (list string) :=
  match lst with
  | [] => Ok ["[]"]
  | _ =>
      let level' := match _indent with Some _ => S level | None => level end in
      let separator :=
        (_item_separator ++ or_empty (newline_indent level'))%string in
      body <- list_items level' separator
                ("[" ++ or_empty (newline_indent level'))%string lst ;;
      Ok (body ++ chunk_of (newline_indent level) ++ ["]"])
  end.

Fixpoint dict_items (level : nat) (item_separator : string) (first : bool)
         (items : list (value * value)) : result (list string) :=
  match items with
  | [] => Ok []
  | (key, v) :: rest =>
      k <- key_text key ;;
      match k with
      | None => dict_items level item_separator first rest
      | Some text =>
          let head :=
            (if first then [] else [item_separator])
              ++ [_encoder text; _key_separator] in
          here <- match leaf_text v with
                  | Some t => Ok [t]
                  | None => walk markers v level
                  end ;;
          more <- dict_items level item_separator false rest ;;
          Ok (head ++ here ++ more)
      end
  end.

Definition _iterencode_dict (dct : list (value * value)) (level : nat)
  : result (list string) :=
  match dct with
  | [] => Ok ["{}"]
  | _ =>
      let level' := match _indent with Some _ => S level | None => level end in
      let item_separator :=
        (_item_separator ++ or_empty (newline_indent level'))%string in
      items <- (if _sort_keys then sorted_items dct else Ok dct) ;;
      body <- dict_items level' item_separator true items ;;
      Ok ("{" :: chunk_of (newline_indent level')
            ++ body ++ chunk_of (newline_indent level) ++ ["}"])
  end.

End Children.

Fixpoint _iterencode (fuel : nat) (markers : option (list nat))
         (o : value) (level : nat) : result (list string) :=
  match fuel with
  | O => Raise RecursionError
  | S fuel' =>
      match o with
      | VList lst => _iterencode_list (_iterencode fuel') markers lst level
      | VDict dct => _iterencode_dict (_iterencode fuel') markers dct level
      | VObj oid _ _ =>
          match markers with
          | Some seen =>
              if existsb (Nat.eqb oid) seen
              then Raise (ValueError "Circular reference detected")
              else (o' <- _default o ;;
                    _iterencode fuel' (Some (oid :: seen)) o' level)
          | None =>
              o' <- _default o ;;
              _iterencode fuel' None o' level
          end
      | _ => Ok (chunk_of (leaf_text o))
      end
  end.

End MakeIterencode.

(** [sys.getrecursionlimit()] *)
Definition recursion_limit : nat := 1000.

(** ** The encoder classes *)

(** [json.JSONEncoder.default]: the terminal error of the native encoder. *)
Definition json_JSONEncoder_default (o : value) : result value :=
  Raise (TypeError (NotSerializable (PyType.name (type_of o)))).

(** [JSONEncoder.default]: [return super().default(o)] *)
Definition JSONEncoder_default (o : value) : result value :=
  json_JSONEncoder_default o.

(** The test of the loop in [_CustomEncoder.default]:
    [isinstance(o, type_) and type_ is not object]. *)
Definition genuine_match (o : value) (type_ : pytype) : bool :=
  isinstance o type_ && negb (is_object type_).

(** The loop of [_CustomEncoder.default] over [dump.registry.items()]:
    [Some] of what [handler(o)] returns at the first entry, in iteration
    order, that passes the test; [None] when the loop runs to its end. *)
Fixpoint registry_loop (items : registry) (o : value) : option (result value) :=
  match items with
  | [] => None
  | (type_, handler) :: rest =>
      if genuine_match o type_
      then Some (call1 handler o)
      else registry_loop rest o
  end.

(** [_CustomEncoder.default] *)
Definition _CustomEncoder_default (reg : registry) (o : value) : result value :=
  match registry_loop reg o with
  | Some returned => returned
  | None => JSONEncoder_default o
  end.

(** [self.default]: the instance attribute when [__init__] set one,
    otherwise the method of the class of [self]. *)
Definition get_default (self : encoder) (reg : registry)
  : value -> result value :=
  match self_default self with
  | Some f => call1 f
  | None =>
      match klass self with
      | json_JSONEncoder => json_JSONEncoder_default
      | JSONEncoder => JSONEncoder_default
      | _CustomEncoder => _CustomEncoder_default reg
      end
  end.

(** [json.JSONEncoder.iterencode(self, o, _one_shot=False)] *)
Definition json_JSONEncoder_iterencode (self : encoder) (reg : registry)
           (o : value) (_one_shot : bool) : result (list string) :=
  let markers := if self_check_circular self then Some [] else None in
  let _encoder :=
    if self_ensure_ascii self then Text.encode_basestring_ascii
    else Text.encode_basestring in
  let _indent :=
    match self_indent self with
    | Some (IndentInt n) => Some (Text.repeat_string " " n)
    | Some (IndentStr s) => Some s
    | None => None
    end in
  _iterencode (get_default self reg) _encoder _indent
    (self_key_separator self) (self_item_separator self)
    (self_sort_keys self) (self_skipkeys self)
    recursion_limit markers o 0.

(** [JSONEncoder.iterencode], declared as [def iterencode(self, o)]:
    [return super().iterencode(o)].  It has no [_one_shot] parameter, so a
    call that passes that keyword is rejected before the body runs. *)
Definition JSONEncoder_iterencode (self : encoder) (reg : registry)
           (o : value) (_one_shot : option bool) : result (list string) :=
  match _one_shot with
  | Some _ => Raise (TypeError (UnexpectedKeyword "iterencode" "_one_shot"))
  | None => json_JSONEncoder_iterencode self reg o false
  end.

(** [self.iterencode(o)] and [self.iterencode(o, _one_shot=b)], resolved
    along the classes of [self]. *)
Definition call_iterencode (self : encoder) (reg : registry) (o : value)
           (_one_shot : option bool) : result (list string) :=
  match klass self with
  | json_JSONEncoder =>
      json_JSONEncoder_iterencode self reg o
        (match _one_shot with Some b => b | None => false end)
  | JSONEncoder | _CustomEncoder =>
      JSONEncoder_iterencode self reg o _one_shot
  end.

(** [json.JSONEncoder.encode]:
    [[
      if isinstance(o, str):
          return encode_basestring_ascii(o)   # or encode_basestring(o)
      chunks = self.iterencode(o, _one_shot=True)
      return ''.join(chunks)
    ]] *)
Definition json_JSONEncoder_encode (self : encoder) (reg : registry)
           (o : value) : result string :=
  match o with
  | VStr s =>
      Ok (if self_ensure_ascii self then Text.encode_basestring_ascii s
          else Text.encode_basestring s)
  | _ =>
      chunks <- call_iterencode self reg o (Some true) ;;
      Ok (Text.join chunks)
  end.

(** [JSONEncoder.encode]: [return super().encode(o)] *)
Definition JSONEncoder_encode (self : encoder) (reg : registry) (o : value)
  : result string :=
  json_JSONEncoder_encode self reg o.

(** [self.encode(o)] *)
Definition call_encode (self : encoder) (reg : registry) (o : value)
  : result string :=
  match klass self with
  | json_JSONEncoder => json_JSONEncoder_encode self reg o
  | JSONEncoder | _CustomEncoder => JSONEncoder_encode self reg o
  end.

(** ** The public functions *)

(** The test that guards the shared encoder, in [dumps] and in
    [json.dumps] alike. *)
Definition all_defaults (o : options) : bool :=
  negb (skipkeys o) && ensure_ascii o
  && check_circular o && allow_nan o
  && match cls o with None => true | Some _ => false end
  && match indent o with None => true | Some _ => false end
  && match separators o with None => true | Some _ => false end
  && match default o with None => true | Some _ => false end
  && negb (sort_keys o)
  && match kw o with [] => true | _ :: _ => false end.

(** The tail of [dumps], after the test: a one-off instance of [cls], or
    of [_CustomEncoder] when no class is given. *)
Definition dumps_one_off (reg : registry) (obj : value) (o : options)
  : result string :=
  let cls := match cls o with None => _CustomEncoder | Some c => c end in
  self <- construct cls o ;;
  call_encode self reg obj.

(** [dumps(obj, *, skipkeys=False, ..., **kw)] *)
Definition dumps (reg : registry) (obj : value) (o : options) : result string :=
  if all_defaults o then call_encode _default_encoder reg obj
  else dumps_one_off reg obj o.

(** [json.dumps]: the same shape over [json.JSONEncoder] and the cached
    instance of the [json] module. *)
Definition json_dumps (reg : registry) (obj : value) (o : options)
  : result string :=
  if all_defaults o
  then call_encode (init_attributes json_JSONEncoder default_options) reg obj
  else
    let cls := match cls o with None => json_JSONEncoder | Some c => c end in
    self <- construct cls o ;;
    call_encode self reg obj.

(** The body of [dump]:
    [[
      iterable = json.dumps(obj, **kwargs)
      for chunk in iterable:
          fp.write(chunk)
    ]] *)
Definition dump_body (reg : registry) (obj : value) (fp : stream)
           (kwargs : options) : result stream :=
  iterable <- json_dumps reg obj kwargs ;;
  Ok (fold_left write (Text.characters iterable) fp).

(** The keyword dict [kwargs] of a call of [dump].  The record stands for
    the call that passes, in the order of the signature of [json.dumps],
    exactly the keywords whose value is not the default, followed by the
    further keywords of [kw]; a call that writes a keyword out with its
    default value is not represented. *)
Definition passed_keywords (o : options) : list string :=
  (if skipkeys o then ["skipkeys"] else [])
  ++ (if ensure_ascii o then [] else ["ensure_ascii"])
  ++ (if check_circular o then [] else ["check_circular"])
  ++ (if allow_nan o then [] else ["allow_nan"])
  ++ match cls o with Some _ => ["cls"] | None => [] end
  ++ match indent o with Some _ => ["indent"] | None => [] end
  ++ match separators o with Some _ => ["separators"] | None => [] end
  ++ match default o with Some _ => ["default"] | None => [] end
  ++ (if sort_keys o then ["sort_keys"] else [])
  ++ kw o.

(** [impl(obj, fp, **kwargs)].  A one-parameter function [def f(obj)]
    called this way is rejected before its body runs: for the first
    keyword passed when there is one (the model keeps no name for [f]),
    for the second positional argument otherwise. *)
Definition call_impl (impl : option callable) (reg : registry) (obj : value)
           (fp : stream) (kwargs : options) : result stream :=
  match impl with
  | Some DumpBody => dump_body reg obj fp kwargs
  | Some (Fn _) =>
      match passed_keywords kwargs with
      | keyword :: _ => Raise (TypeError (UnexpectedKeyword "" keyword))
      | [] => Raise (TypeError (TooManyPositional 2))
      end
  | None => Raise (TypeError NotCallable)
  end.

(** [dump(obj, fp, **kwargs)], through the [singledispatch] wrapper:
    [dispatch(args[0].__class__)] applied to the same arguments. *)
Definition dump (reg : registry) (obj : value) (fp : stream)
           (kwargs : options) : result stream :=
  call_impl (dispatch reg (type_of obj)) reg obj fp kwargs.

Section Loads.

(** [json.loads], the parser of the [json] module. *)
Variable json_loads : string -> result value.

(** [loads]: [return json.loads] of the same arguments *)
Definition loads (s : string) : result value := json_loads s.

(** [loads(dumps(obj))] *)
Definition round_trip (reg : registry) (obj : value) : result value :=
  text <- dumps reg obj default_options ;;
  loads text.

(** [dump(obj, fp)] on an empty file, then [loads] of what was written *)
Definition round_trip_stream (reg : registry) (obj : value) : result value :=
  fp <- dump reg obj [] default_options ;;
  loads (contents fp).

End Loads.

(** ** Natively encodable values *)

(** No instance in a position that the walk descends into: the value is
    encoded without a call of [default]. *)
Fixpoint native (v : value) : bool :=
  match v with
  | VObj _ _ _ => false
  | VList xs => forallb native xs
  | VDict items =>
      forallb (fun kv => match kv with (_, x) => native x end) items
  | _ => true
  end.

(** Nesting depth, a leaf counting for one. *)
Fixpoint depth (v : value) : nat :=
  match v with
  | VList xs => S (fold_right (fun x d => Nat.max (depth x) d) 0 xs)
  | VDict items =>
      S (fold_right
           (fun kv d => match kv with (_, x) => Nat.max (depth x) d end)
           0 items)
  | _ => 1
  end.

(** ** A small class hierarchy used in the worked examples *)

Module Example.

Definition Point : uclass := UClass "Point" [].
Definition Shape : uclass := UClass "Shape" [].
Definition Polygon : uclass := UClass "Polygon" [Shape].
Definition Square : uclass := UClass "Square" [Polygon; Shape].
Definition Blob : uclass := UClass "Blob" [].

(** [o.a] *)
Definition attr (o : value) (a : string) : result value :=
  match o with
  | VObj _ _ attrs =>
      match assoc a attrs with
      | Some v => Ok v
      | None => Raise (AttributeError a)
      end
  | _ => Raise (AttributeError a)
  end.

(** [def encode_point(p): return {'x': p.x, 'y': p.y}] *)
Definition encode_point (p : value) : result value :=
  x <- attr p "x" ;;
  y <- attr p "y" ;;
  Ok (VDict [(VStr "x", x); (VStr "y", y)]).

(** [Point(1, 2)] *)
Definition point_1_2 : value :=
  VObj 1 Point [("x", VInt 1); ("y", VInt 2)].

Definition a_square : value := VObj 2 Square [("side", VInt 3)].
Definition a_polygon : value := VObj 4 Polygon [].
Definition a_blob : value := VObj 3 Blob [].

Definition tag (t : string) (_ : value) : result value := Ok (VStr t).

(** [def shout(s): return s + '!'] *)
Definition shout (s : value) : result value :=
  match s with
  | VStr t => Ok (VStr (t ++ "!"))
  | _ => Raise (TypeError NotCallable)
  end.

(** [Point] registered after import. *)
Definition with_point : registry :=
  snd (register (User Point) (Fn encode_point) initial_registry).

(** [Shape] registered, then [Polygon]. *)
Definition shape_then_polygon : registry :=
  register_all [(User Shape, Fn (tag "shape")); (User Polygon, Fn (tag "polygon"))]
    initial_registry.

(** [str] registered. *)
Definition with_str : registry :=
  snd (register str_ (Fn shout) initial_registry).

Definition with_cls (c : encoder_class) : options := {|
  skipkeys := false;
  ensure_ascii := true;
  check_circular := true;
  allow_nan := true;
  cls := Some c;
  indent := None;
  separators := None;
  default := None;
  sort_keys := false;
  kw := []
|}.


(** [def same(o): return o] *)
Definition same (o : value) : result value := Ok o.

Definition without_check_circular : options := {|
  skipkeys := false;
  ensure_ascii := true;
  check_circular := false;
  allow_nan := true;
  cls := None;
  indent := None;
  separators := None;
  default := None;
  sort_keys := false;
  kw := []
|}.

(** The default options with one stray keyword. *)
Definition with_keyword (name : string) : options := {|
  skipkeys := false;
  ensure_ascii := true;
  check_circular := true;
  allow_nan := true;
  cls := None;
  indent := None;
  separators := None;
  default := None;
  sort_keys := false;
  kw := [name]
|}.

End Example.

(** * Properties *)

(** ** Classes and the registry as a dict *)

Lemma uclass_eqb_eq (a b : uclass) : uclass_eqb a b = true <-> a = b.
Proof.
  revert b. induction a as [n s IH] using uclass_nested_ind.
  intros [m t]. simpl. rewrite andb_true_iff, String.eqb_eq.
  assert (L : (fix go (xs ys : list uclass) : bool :=
                 match xs, ys with
                 | [], [] => true
                 | x :: xs', y :: ys' => uclass_eqb x y && go xs' ys'
                 | _, _ => false
                 end) s t = true <-> s = t).
  { clear n m. revert t. induction IH as [|x r Hx _ IHr]; intros [|y t]; simpl;
      try (split; [discriminate | discriminate]); try tauto.
    rewrite andb_true_iff, Hx, IHr. split.
    - intros [-> ->]. reflexivity.
    - intros E. injection E as -> ->. tauto. }
  rewrite L. split.
  - intros [-> ->]. reflexivity.
  - intros E. injection E as -> ->. tauto.
Qed.

Lemma pytype_eqb_eq (a b : pytype) : PyType.eqb a b = true <-> a = b.
Proof.
  destruct a, b; simpl; try (split; [discriminate | discriminate]); try tauto.
  rewrite uclass_eqb_eq. split; [intros -> | intros E; injection E as ->]; tauto.
Qed.

Lemma pytype_eqb_refl (a : pytype) : PyType.eqb a a = true.
Proof. apply pytype_eqb_eq. reflexivity. Qed.

Lemma isinstance_own_type (o : value) : isinstance o (type_of o) = true.
Proof.
  unfold isinstance, issubclass.
  destruct o; simpl; try reflexivity.
  rewrite (proj2 (uclass_eqb_eq c c) eq_refl). reflexivity.
Qed.

Lemma type_of_not_object (o : value) : is_object (type_of o) = false.
Proof. destruct o; reflexivity. Qed.

Lemma genuine_match_own_type (o : value) : genuine_match o (type_of o) = true.
Proof.
  unfold genuine_match.
  rewrite isinstance_own_type, type_of_not_object. reflexivity.
Qed.

(** The [object] entry passes [isinstance] for every value and is refused
    by the second half of the test. *)
Lemma object_never_genuine (o : value) : genuine_match o object = false.
Proof. unfold genuine_match. simpl. apply andb_false_r. Qed.

Lemma getitem_setitem_same (d : registry) (k : pytype) (v : callable) :
  getitem (setitem d k v) k = Some v.
Proof.
  induction d as [|[k' v'] rest IH]; simpl.
  - rewrite pytype_eqb_refl. reflexivity.
  - destruct (PyType.eqb k k') eqn:E; simpl; rewrite E; auto.
Qed.

Lemma getitem_setitem_other (d : registry) (k k' : pytype) (v : callable) :
  PyType.eqb k' k = false ->
  getitem (setitem d k v) k' = getitem d k'.
Proof.
  intros N. induction d as [|[k0 v0] rest IH]; simpl.
  - rewrite N. reflexivity.
  - destruct (PyType.eqb k k0) eqn:E; simpl.
    + apply pytype_eqb_eq in E. subst k0. rewrite N. reflexivity.
    + rewrite IH. reflexivity.
Qed.

(** Assigning twice to a key leaves what a single assignment of the
    second value leaves. *)
Lemma setitem_setitem (d : registry) (k : pytype) (v w : callable) :
  setitem (setitem d k v) k w = setitem d k w.
Proof.
  induction d as [|[k' v'] rest IH]; simpl.
  - rewrite pytype_eqb_refl. reflexivity.
  - destruct (PyType.eqb k k') eqn:E; simpl; rewrite E.
    + reflexivity.
    + rewrite IH. reflexivity.
Qed.

(** A new key goes to the end. *)
Lemma setitem_fresh (d : registry) (k : pytype) (v : callable) :
  existsb (PyType.eqb k) (keys d) = false ->
  setitem d k v = d ++ [(k, v)].
Proof.
  induction d as [|[k' v'] rest IH]; simpl; intros H.
  - reflexivity.
  - apply orb_false_iff in H. destruct H as [E H].
    rewrite E, IH by exact H. reflexivity.
Qed.

(** The [object] entry with which [singledispatch] seeds the registry is
    never lost. *)
Lemma setitem_keeps_keys (d : registry) (k k' : pytype) (v : callable) :
  existsb (PyType.eqb k') (keys d) = true ->
  existsb (PyType.eqb k') (keys (setitem d k v)) = true.
Proof.
  induction d as [|[k0 v0] rest IH]; simpl; intros H.
  - discriminate.
  - destruct (PyType.eqb k k0) eqn:E; simpl.
    + exact H.
    + apply orb_true_iff in H. apply orb_true_iff.
      destruct H as [H|H]; [left | right]; auto.
Qed.

Lemma register_all_keeps_object (rs : list (pytype * callable)) (reg : registry) :
  existsb (PyType.eqb object) (keys reg) = true ->
  existsb (PyType.eqb object) (keys (register_all rs reg)) = true.
Proof.
  revert reg. induction rs as [|[t f] rs IH]; simpl; intros reg H.
  - exact H.
  - apply IH. apply setitem_keeps_keys. exact H.
Qed.

Lemma keys_before_setitem (d : registry) (k : pytype) (v : callable) :
  keys_before k (setitem d k v) = keys_before k d.
Proof.
  induction d as [|[k' v'] rest IH]; simpl.
  - rewrite pytype_eqb_refl. reflexivity.
  - destruct (PyType.eqb k k') eqn:E; simpl; rewrite E.
    + reflexivity.
    + rewrite IH. reflexivity.
Qed.

(** ** The loop of [_CustomEncoder.default] *)

(** The loop is a search for the first entry that passes the test. *)
Lemma registry_loop_find (reg : registry) (o : value) :
  registry_loop reg o =
  match find (fun e => genuine_match o (fst e)) reg with
  | Some (_, handler) => Some (call1 handler o)
  | None => None
  end.
Proof.
  induction reg as [|[t h] rest IH]; simpl.
  - reflexivity.
  - destruct (genuine_match o t); [reflexivity | exact IH].
Qed.

Lemma registry_loop_none (reg : registry) (o : value) :
  existsb (genuine_match o) (keys reg) = false ->
  registry_loop reg o = None.
Proof.
  induction reg as [|[t h] rest IH]; simpl; intros H.
  - reflexivity.
  - apply orb_false_iff in H. destruct H as [E H].
    rewrite E. apply IH. exact H.
Qed.

Lemma registry_loop_app (pre post : registry) (o : value) :
  existsb (genuine_match o) (keys pre) = false ->
  registry_loop (pre ++ post) o = registry_loop post o.
Proof.
  induction pre as [|[t h] rest IH]; simpl; intros H.
  - reflexivity.
  - apply orb_false_iff in H. destruct H as [E H].
    rewrite E. apply IH. exact H.
Qed.

(** The entry of [T] is the one taken when nothing before it passes. *)
Lemma registry_loop_entry (reg : registry) (o : value) (T : pytype)
      (h : callable) :
  getitem reg T = Some h ->
  genuine_match o T = true ->
  existsb (genuine_match o) (keys_before T reg) = false ->
  registry_loop reg o = Some (call1 h o).
Proof.
  induction reg as [|[t h'] rest IH]; simpl; intros G M B.
  - discriminate.
  - destruct (PyType.eqb T t) eqn:E.
    + apply pytype_eqb_eq in E. subst t. injection G as ->.
      rewrite M. reflexivity.
    + simpl in B. apply orb_false_iff in B. destruct B as [N B].
      rewrite N. apply IH; assumption.
Qed.

Lemma unmatched_key_absent (reg : registry) (o : value) (T : pytype) :
  existsb (genuine_match o) (keys reg) = false ->
  genuine_match o T = true ->
  existsb (PyType.eqb T) (keys reg) = false.
Proof.
  induction reg as [|[t h] rest IH]; simpl; intros H M.
  - reflexivity.
  - apply orb_false_iff in H. destruct H as [E H].
    rewrite (IH H M), orb_false_r.
    destruct (PyType.eqb T t) eqn:Q; [|reflexivity].
    apply pytype_eqb_eq in Q. subst t. congruence.
Qed.

Lemma keys_app (a b : registry) : keys (a ++ b) = keys a ++ keys b.
Proof. apply map_app. Qed.

(** C3.  Lookup in [_CustomEncoder.default] walks the registry in
    insertion order and takes the first entry of which the value is an
    instance, the [object] entry excepted.  So for a value that no entry
    of the registry matches yet: once an ancestor [A] of its class is
    registered, the hook returns what [A]'s encoder returns instead of
    the native error; and when a second ancestor [B] is registered after
    [A], it is still [A]'s encoder, the first registered, that is used. *)
Theorem lookup_first_registered_wins (reg : registry) (o : value)
        (A B : pytype) (ha hb : callable) :
  genuine_match o A = true ->
  genuine_match o B = true ->
  PyType.eqb B A = false ->
  existsb (genuine_match o) (keys reg) = false ->
  (forall r, _CustomEncoder_default r o =
             match find (fun e => genuine_match o (fst e)) r with
             | Some (_, handler) => call1 handler o
             | None => JSONEncoder_default o
             end)
  /\ _CustomEncoder_default (snd (register A ha reg)) o = call1 ha o
  /\ _CustomEncoder_default (register_all [(A, ha); (B, hb)] reg) o = call1 ha o.
Proof.
  intros MA MB NE U.
  assert (FA : existsb (PyType.eqb A) (keys reg) = false)
    by (eapply unmatched_key_absent; eassumption).
  assert (FB : existsb (PyType.eqb B) (keys reg) = false)
    by (eapply unmatched_key_absent; eassumption).
  assert (R1 : setitem reg A ha = reg ++ [(A, ha)]) by (apply setitem_fresh; exact FA).
  assert (R2 : setitem (reg ++ [(A, ha)]) B hb = (reg ++ [(A, ha)]) ++ [(B, hb)]).
  { apply setitem_fresh. rewrite keys_app, existsb_app, FB. simpl.
    rewrite NE. reflexivity. }
  split; [|split].
  - intros r. unfold _CustomEncoder_default. rewrite registry_loop_find.
    destruct (find _ r) as [[t h]|]; reflexivity.
  - unfold _CustomEncoder_default, register. simpl snd.
    rewrite R1, registry_loop_app by exact U. simpl. rewrite MA. reflexivity.
  - unfold _CustomEncoder_default, register_all, register. simpl.
    rewrite R1, R2, <- app_assoc, registry_loop_app by exact U.
    simpl. rewrite MA. reflexivity.
Qed.

Lemma lookup_first_registered_wins_witness :
  _CustomEncoder_default Example.shape_then_polygon Example.a_square
  = Ok (VStr "shape").
Proof.
  apply (lookup_first_registered_wins initial_registry Example.a_square
           (User Example.Shape) (User Example.Polygon)
           (Fn (Example.tag "shape")) (Fn (Example.tag "polygon")));
    reflexivity.
Defined.


(** ** Registration *)

(** C9.  [dump.register(T)(f)] hands back [f] itself, and the registry it
    leaves holds [f] under [T]: [dump.registry[T] is f]. *)
Theorem register_returns_encoder (T : pytype) (f : callable) (reg : registry) :
  fst (register T f reg) = f
  /\ getitem (snd (register T f reg)) T = Some f.
Proof.
  split.
  - reflexivity.
  - apply getitem_setitem_same.
Qed.

(** Registration leaves every other entry as it was. *)
Lemma register_other_entries (T T' : pytype) (f : callable) (reg : registry) :
  PyType.eqb T' T = false ->
  getitem (snd (register T f reg)) T' = getitem reg T'.
Proof. apply getitem_setitem_other. Qed.

Lemma register_keeps_object (T : pytype) (f : callable) (reg : registry) :
  existsb (PyType.eqb object) (keys reg) = true ->
  existsb (PyType.eqb object) (keys (snd (register T f reg))) = true.
Proof. apply setitem_keeps_keys. Qed.

(** ** What [encode] does with a value that is not a string

    [json.JSONEncoder.encode] passes the keyword [_one_shot] to
    [self.iterencode], and the [iterencode] that [JSONEncoder] declares
    does not take it. *)

Lemma encode_non_str (self : encoder) (reg : registry) (o : value) :
  klass self <> json_JSONEncoder ->
  is_str o = false ->
  call_encode self reg o
  = Raise (TypeError (UnexpectedKeyword "iterencode" "_one_shot")).
Proof.
  intros K S. unfold call_encode, JSONEncoder_encode, json_JSONEncoder_encode,
    call_iterencode, JSONEncoder_iterencode.
  destruct (klass self); try congruence; destruct o; try discriminate; reflexivity.
Qed.

Lemma encode_str (self : encoder) (reg : registry) (s : string) :
  call_encode self reg (VStr s)
  = Ok (if self_ensure_ascii self then Text.encode_basestring_ascii s
        else Text.encode_basestring s).
Proof. unfold call_encode. destruct (klass self); reflexivity. Qed.

(** The text returned for a string does not depend on the registry. *)
Lemma encode_registry_irrelevant (self : encoder) (reg reg' : registry)
      (o : value) :
  klass self <> json_JSONEncoder ->
  call_encode self reg o = call_encode self reg' o.
Proof.
  intros K. destruct (is_str o) eqn:S.
  - destruct o; try discriminate. rewrite !encode_str. reflexivity.
  - rewrite !encode_non_str by assumption. reflexivity.
Qed.

Lemma dumps_default_options (reg : registry) (o : value) :
  dumps reg o default_options = call_encode _default_encoder reg o.
Proof. reflexivity. Qed.

Lemma dumps_non_str_eq (reg : registry) (o : value) :
  is_str o = false ->
  dumps reg o default_options
  = Raise (TypeError (UnexpectedKeyword "iterencode" "_one_shot")).
Proof.
  intros S. rewrite dumps_default_options. apply encode_non_str.
  - discriminate.
  - exact S.
Qed.

(** ** No handler *)

(** The loop over a registry without a match for an instance runs to its
    end, and the hook then raises the error of the native [default]. *)
Lemma hook_without_match (reg : registry) (oid : nat) (c : uclass)
      (attrs : list (string * value)) :
  existsb (genuine_match (VObj oid c attrs)) (keys reg) = false ->
  registry_loop reg (VObj oid c attrs) = None
  /\ _CustomEncoder_default reg (VObj oid c attrs)
     = Raise (TypeError (NotSerializable (uname c))).
Proof.
  intros U.
  assert (L : registry_loop reg (VObj oid c attrs) = None)
    by (apply registry_loop_none; exact U).
  split; [exact L|].
  unfold _CustomEncoder_default. rewrite L. reflexivity.
Qed.

(** C8, at [Blob()] with no entry for [Blob]: the loop of
    [_CustomEncoder.default] finds no handler without raising, and the
    hook raises the native "not JSON serializable" error; [dumps],
    however, raises the [TypeError] of the rejected [_one_shot] keyword,
    which is another error than the one of the hook. *)
Theorem unregistered_blob_raises_keyword_error :
  registry_loop Example.with_point Example.a_blob = None
  /\ _CustomEncoder_default Example.with_point Example.a_blob
     = Raise (TypeError (NotSerializable "Blob"))
  /\ dumps Example.with_point Example.a_blob default_options
     = Raise (TypeError (UnexpectedKeyword "iterencode" "_one_shot"))
  /\ dumps Example.with_point Example.a_blob default_options
     <> Raise (TypeError (NotSerializable "Blob")).
Proof.
  split; [reflexivity|split; [reflexivity|split; [reflexivity|]]].
  rewrite dumps_non_str_eq by reflexivity. discriminate.
Qed.

(** ** Registering a type again *)

(** C7, as stated, fails where an ancestor of the type was registered
    first: [Shape] is registered, then [Polygon] twice; the hook hands a
    [Polygon] to the encoder of [Shape], not to the second encoder of
    [Polygon]. *)
Lemma reregistration_counterexample :
  let reg :=
    register_all
      [(User Example.Shape, Fn (Example.tag "shape"));
       (User Example.Polygon, Fn (Example.tag "old"));
       (User Example.Polygon, Fn (Example.tag "new"))]
      initial_registry in
  type_of Example.a_polygon = User Example.Polygon
  /\ _CustomEncoder_default reg Example.a_polygon = Ok (VStr "shape")
  /\ _CustomEncoder_default reg Example.a_polygon
     <> call1 (Fn (Example.tag "new")) Example.a_polygon.
Proof.
  cbv zeta. split; [reflexivity|split].
  - reflexivity.
  - vm_compute. discriminate.
Qed.

(** C7, amended.  Registering [f] and then [g] for [T] leaves exactly the
    registry that registering [g] alone leaves, with [g] under [T]; and a
    value of type [T] that no entry inserted before the entry of [T]
    matches is handed to [g]. *)
Theorem reregistration_replaces (T : pytype) (f g : callable) (reg : registry)
        (o : value) :
  type_of o = T ->
  existsb (genuine_match o) (keys_before T reg) = false ->
  register_all [(T, f); (T, g)] reg = snd (register T g reg)
  /\ getitem (register_all [(T, f); (T, g)] reg) T = Some g
  /\ _CustomEncoder_default (register_all [(T, f); (T, g)] reg) o = call1 g o.
Proof.
  intros Ty B.
  assert (E : register_all [(T, f); (T, g)] reg = setitem reg T g)
    by (unfold register_all, register; simpl; apply setitem_setitem).
  rewrite E. split; [reflexivity|split].
  - apply getitem_setitem_same.
  - unfold _CustomEncoder_default.
    rewrite (registry_loop_entry (setitem reg T g) o T g).
    + reflexivity.
    + apply getitem_setitem_same.
    + subst T. apply genuine_match_own_type.
    + rewrite keys_before_setitem. exact B.
Qed.

Lemma reregistration_replaces_witness :
  _CustomEncoder_default
    (register_all
       [(User Example.Point, Fn (Example.tag "old"));
        (User Example.Point, Fn Example.encode_point)]
       initial_registry)
    Example.point_1_2
  = Ok (VDict [(VStr "x", VInt 1); (VStr "y", VInt 2)]).
Proof.
  apply (reregistration_replaces (User Example.Point)
           (Fn (Example.tag "old")) (Fn Example.encode_point)
           initial_registry Example.point_1_2); reflexivity.
Defined.

(** ** The shared encoder *)

Lemma all_defaults_inv (o : options) :
  all_defaults o = true -> o = default_options.
Proof.
  destruct o as [sk ea cc an c i s d so k]. unfold all_defaults. simpl.
  destruct sk, ea, cc, an, c, i, s, d, so, k; try discriminate. reflexivity.
Qed.

(** C5.  When every option has its default value, the shared
    [_default_encoder] is the instance that the one-off path would build,
    and [dumps] returns what the one-off path returns. *)
Theorem shared_encoder_is_one_off (reg : registry) (v : value) (o : options) :
  all_defaults o = true ->
  construct _CustomEncoder o = Ok _default_encoder
  /\ dumps reg v o = dumps_one_off reg v o.
Proof.
  intros H. apply all_defaults_inv in H. subst o. split; reflexivity.
Qed.

Lemma shared_encoder_is_one_off_witness :
  dumps Example.with_point (VStr "spam") default_options
  = dumps_one_off Example.with_point (VStr "spam") default_options.
Proof.
  apply (shared_encoder_is_one_off Example.with_point (VStr "spam")
           default_options).
  reflexivity.
Defined.

(** ** An explicit encoder class *)

(** C4, at [Point(1, 2)] with [encode_point] registered: with
    [cls=JSONEncoder], [dumps] raises the [TypeError] of the rejected
    [_one_shot] keyword, as it does for the list [[1]]; the stock
    behaviour is the one of [json.JSONEncoder], which raises "not JSON
    serializable" for the point and returns the text of the list. *)
Theorem explicit_class_raises_keyword_error :
  dumps Example.with_point Example.point_1_2 (Example.with_cls JSONEncoder)
  = Raise (TypeError (UnexpectedKeyword "iterencode" "_one_shot"))
  /\ dumps Example.with_point Example.point_1_2
       (Example.with_cls json_JSONEncoder)
     = Raise (TypeError (NotSerializable "Point"))
  /\ dumps Example.with_point (VList [VInt 1]) (Example.with_cls JSONEncoder)
     = Raise (TypeError (UnexpectedKeyword "iterencode" "_one_shot"))
  /\ dumps Example.with_point (VList [VInt 1])
       (Example.with_cls json_JSONEncoder)
     = Ok "[1]".
Proof.
  split; [reflexivity|split; [vm_compute; reflexivity|split; [reflexivity|]]].
  vm_compute. reflexivity.
Qed.

(** ** [dumps] and the registry *)

Lemma dumps_non_str (reg : registry) (o : value) :
  is_str o = false ->
  dumps reg o default_options
  = Raise (TypeError (UnexpectedKeyword "iterencode" "_one_shot")).
Proof.
  intros S. rewrite dumps_default_options. apply encode_non_str.
  - discriminate.
  - exact S.
Qed.

(** With the default options the outcome of [dumps] is the same under any
    two registries. *)
Lemma dumps_registry_irrelevant (reg reg' : registry) (o : value) :
  dumps reg o default_options = dumps reg' o default_options.
Proof.
  rewrite !dumps_default_options. apply encode_registry_irrelevant.
  discriminate.
Qed.

(** The [default] of the shared encoder is the loop over the registry of
    the moment of the call. *)
Lemma shared_encoder_reads_registry (reg : registry) (o : value) :
  get_default _default_encoder reg o = _CustomEncoder_default reg o.
Proof. reflexivity. Qed.

(** C6, at the value [1]: [dumps(1)] raises, so [loads(dumps(1))] yields
    no value, whatever the parser does. *)
Theorem round_trip_of_int_raises (json_loads : string -> result value)
        (reg : registry) :
  dumps reg (VInt 1) default_options
  = Raise (TypeError (UnexpectedKeyword "iterencode" "_one_shot"))
  /\ round_trip json_loads reg (VInt 1)
     = Raise (TypeError (UnexpectedKeyword "iterencode" "_one_shot")).
Proof.
  unfold round_trip. rewrite dumps_non_str by reflexivity.
  split; reflexivity.
Qed.

(** The same for [null], booleans, lists and dicts. *)
Lemma round_trip_of_non_str_raises (json_loads : string -> result value)
      (reg : registry) (o : value) :
  is_str o = false ->
  round_trip json_loads reg o
  = Raise (TypeError (UnexpectedKeyword "iterencode" "_one_shot")).
Proof.
  intros S. unfold round_trip. rewrite dumps_non_str by exact S. reflexivity.
Qed.

(** C10, at [Point(1, 2)] with [encode_point] registered after import: the
    [default] of the shared encoder does return the dict of
    [encode_point], yet [dumps] raises exactly as it does without the
    registration. *)
Theorem fast_path_misses_registration :
  get_default _default_encoder Example.with_point Example.point_1_2
  = Ok (VDict [(VStr "x", VInt 1); (VStr "y", VInt 2)])
  /\ dumps Example.with_point Example.point_1_2 default_options
     = Raise (TypeError (UnexpectedKeyword "iterencode" "_one_shot"))
  /\ dumps Example.with_point Example.point_1_2 default_options
     = dumps initial_registry Example.point_1_2 default_options.
Proof. repeat split. Qed.

(** ** [dump] *)

Lemma fold_left_write (chunks : list string) (fp : stream) :
  fold_left write chunks fp = fp ++ chunks.
Proof.
  revert fp. induction chunks as [|c cs IH]; intros fp; simpl.
  - rewrite app_nil_r. reflexivity.
  - rewrite IH. unfold write. rewrite <- app_assoc. reflexivity.
Qed.

Lemma join_characters (text : string) :
  Text.join (Text.characters text) = text.
Proof.
  unfold Text.join, Text.characters.
  induction text as [|c rest IH]; simpl.
  - reflexivity.
  - destruct rest as [|c' rest'].
    + reflexivity.
    + simpl in *. rewrite IH. reflexivity.
Qed.

(** The body of [dump] writes the text of [json.dumps] one character at a
    time, in order. *)
Lemma dump_body_writes_json_dumps (reg : registry) (obj : value)
      (kwargs : options) (text : string) :
  json_dumps reg obj kwargs = Ok text ->
  dump_body reg obj [] kwargs = Ok (Text.characters text)
  /\ contents (Text.characters text) = text.
Proof.
  intros H. unfold dump_body. rewrite H. simpl. rewrite fold_left_write.
  split; [reflexivity | apply join_characters].
Qed.

(** C1, with an encoder registered for [str]: [dumps('a')] returns the
    text of the string, while [dump('a', fp)] dispatches on [str] and
    calls the registered one-parameter function with [(obj, fp)]. *)
Theorem dump_differs_from_dumps :
  getitem Example.with_str str_ = Some (Fn Example.shout)
  /\ dumps Example.with_str (VStr "a") default_options
     = Ok (Text.quote ++ "a" ++ Text.quote)%string
  /\ dump Example.with_str (VStr "a") [] default_options
     = Raise (TypeError (TooManyPositional 2)).
Proof. repeat split. Qed.

(** [dump] of a list that holds a registered instance never reaches the
    registry: its body calls [json.dumps]. *)
Lemma dump_of_nested_instance :
  dump Example.with_point (VList [Example.point_1_2]) [] default_options
  = Raise (TypeError (NotSerializable "Point"))
  /\ json_dumps Example.with_point (VList [Example.point_1_2]) default_options
     = Raise (TypeError (NotSerializable "Point")).
Proof. split; vm_compute; reflexivity. Qed.

(** [dump] of an integer writes its digits; [dumps] of it raises. *)
Lemma dump_of_int :
  dump initial_registry (VInt 42) [] default_options = Ok ["4"; "2"]
  /\ dumps initial_registry (VInt 42) default_options
     = Raise (TypeError (UnexpectedKeyword "iterencode" "_one_shot")).
Proof. split; vm_compute; reflexivity. Qed.

(** ** An encoder registered for a type *)

(** C2, as stated, fails for a type that JSON represents natively: with
    [shout] registered for [str], [dumps('a')] is the text of ['a'] and
    [dumps(shout('a'))] is the text of ['a!']. *)
Lemma registered_native_type_counterexample :
  getitem Example.with_str (type_of (VStr "a")) = Some (Fn Example.shout)
  /\ dumps Example.with_str (VStr "a") default_options
     = Ok (Text.quote ++ "a" ++ Text.quote)%string
  /\ (v' <- Example.shout (VStr "a") ;;
      dumps Example.with_str v' default_options)
     = Ok (Text.quote ++ "a!" ++ Text.quote)%string
  /\ dumps Example.with_str (VStr "a") default_options
     <> (v' <- Example.shout (VStr "a") ;;
         dumps Example.with_str v' default_options).
Proof.
  repeat split. vm_compute. discriminate.
Qed.

(** ** The walk over natively encodable values *)

Lemma depth_in_list (x : value) (xs : list value) :
  In x xs -> depth x <= fold_right (fun y d => Nat.max (depth y) d) 0 xs.
Proof.
  induction xs as [|y ys IH]; simpl; intros H.
  - contradiction.
  - destruct H as [->|H]; [lia | specialize (IH H); lia].
Qed.

Lemma depth_in_items (k x : value) (items : list (value * value)) :
  In (k, x) items ->
  depth x <= fold_right
               (fun kv d => match kv with (_, y) => Nat.max (depth y) d end)
               0 items.
Proof.
  induction items as [|[k' y] rest IH]; simpl; intros H.
  - contradiction.
  - destruct H as [E|H]; [injection E as -> ->; lia | specialize (IH H); lia].
Qed.

Lemma insert_item_In (kv : value * value) (sorted out : list (value * value)) :
  insert_item kv sorted = Ok out ->
  forall e, In e out -> e = kv \/ In e sorted.
Proof.
  revert out. induction sorted as [|kv' rest IH]; simpl; intros out H e I.
  - injection H as <-. destruct I as [<-|[]]. left. reflexivity.
  - destruct (key_lt (fst kv) (fst kv')) as [lt|]; simpl in H; [|discriminate].
    destruct lt.
    + injection H as <-. destruct I as [<-|I]; [left; reflexivity | right; exact I].
    + destruct (insert_item kv rest) as [rest'|] eqn:R; simpl in H; [|discriminate].
      injection H as <-. destruct I as [<-|I].
      * right. left. reflexivity.
      * destruct (IH rest' eq_refl e I) as [->|J]; [left; reflexivity | right; right; exact J].
Qed.

Lemma sorted_items_In (items out : list (value * value)) :
  sorted_items items = Ok out ->
  forall e, In e out -> In e items.
Proof.
  revert out. induction items as [|kv rest IH]; simpl; intros out H e I.
  - injection H as <-. exact I.
  - destruct (sorted_items rest) as [rest'|] eqn:R; simpl in H; [|discriminate].
    destruct (insert_item_In kv rest' out H e I) as [->|J].
    + left. reflexivity.
    + right. apply (IH rest' eq_refl e J).
Qed.

Section NativeWalk.

Variable _encoder : string -> string.
Variable _indent : option string.
Variable _key_separator : string.
Variable _item_separator : string.
Variable _sort_keys : bool.
Variable _skipkeys : bool.

Variables walk1 walk2 : option (list nat) -> value -> nat -> result (list string).
Variables markers1 markers2 : option (list nat).

Lemma list_items_ext (lst : list value) (level : nat) (separator buf : string) :
  (forall x l, In x lst -> walk1 markers1 x l = walk2 markers2 x l) ->
  list_items _encoder walk1 markers1 level separator buf lst
  = list_items _encoder walk2 markers2 level separator buf lst.
Proof.
  revert buf. induction lst as [|v rest IH]; simpl; intros buf H.
  - reflexivity.
  - rewrite (H v level) by (left; reflexivity).
    rewrite IH by (intros x l I; apply H; right; exact I).
    reflexivity.
Qed.

Lemma dict_items_ext (items : list (value * value)) (level : nat)
      (item_separator : string) (first : bool) :
  (forall k x l, In (k, x) items -> walk1 markers1 x l = walk2 markers2 x l) ->
  dict_items _encoder _key_separator _skipkeys walk1 markers1
    level item_separator first items
  = dict_items _encoder _key_separator _skipkeys walk2 markers2
      level item_separator first items.
Proof.
  revert first. induction items as [|[k v] rest IH]; simpl; intros first H.
  - reflexivity.
  - destruct (key_text _skipkeys k) as [[text|]|]; simpl.
    + rewrite (H k v level) by (left; reflexivity).
      rewrite IH by (intros k' x l I; apply (H k'); right; exact I).
      reflexivity.
    + apply IH. intros k' x l I. apply (H k'). right. exact I.
    + reflexivity.
Qed.

Lemma iterencode_list_ext (lst : list value) (level : nat) :
  (forall x l, In x lst -> walk1 markers1 x l = walk2 markers2 x l) ->
  _iterencode_list _encoder _indent _item_separator walk1 markers1 lst level
  = _iterencode_list _encoder _indent _item_separator walk2 markers2 lst level.
Proof.
  intros H. unfold _iterencode_list. destruct lst as [|x xs]; [reflexivity|].
  rewrite (list_items_ext (x :: xs)) by exact H. reflexivity.
Qed.

Lemma iterencode_dict_ext (dct : list (value * value)) (level : nat) :
  (forall k x l, In (k, x) dct -> walk1 markers1 x l = walk2 markers2 x l) ->
  _iterencode_dict _encoder _indent _key_separator _item_separator
    _sort_keys _skipkeys walk1 markers1 dct level
  = _iterencode_dict _encoder _indent _key_separator _item_separator
      _sort_keys _skipkeys walk2 markers2 dct level.
Proof.
  intros H. unfold _iterencode_dict. destruct dct as [|kv rest]; [reflexivity|].
  destruct _sort_keys.
  - destruct (sorted_items (kv :: rest)) as [sorted|] eqn:S; [|reflexivity].
    unfold bind at 1 3.
    rewrite (dict_items_ext sorted); [reflexivity|].
    intros k x l I. apply (H k). apply (sorted_items_In (kv :: rest) sorted S).
    exact I.
  - unfold bind at 1 3.
    rewrite (dict_items_ext (kv :: rest)); [reflexivity|].
    exact H.
Qed.

End NativeWalk.

(** A natively encodable value is encoded without regard to the [default]
    function, to the marker table and to the fuel left, as long as the
    fuel covers its depth. *)
Lemma iterencode_native
      (d1 d2 : value -> result value) (_encoder : string -> string)
      (_indent : option string) (_key_separator _item_separator : string)
      (_sort_keys _skipkeys : bool) (fuel1 : nat) :
  forall (fuel2 : nat) (m1 m2 : option (list nat)) (v : value) (level : nat),
  native v = true ->
  depth v <= fuel1 ->
  depth v <= fuel2 ->
  _iterencode d1 _encoder _indent _key_separator _item_separator
    _sort_keys _skipkeys fuel1 m1 v level
  = _iterencode d2 _encoder _indent _key_separator _item_separator
      _sort_keys _skipkeys fuel2 m2 v level.
Proof.
  induction fuel1 as [|f1 IH]; intros fuel2 m1 m2 v level N D1 D2.
  - destruct v; simpl in D1; lia.
  - destruct fuel2 as [|f2]; [destruct v; simpl in D2; lia|].
    destruct v as [| b | n | s | xs | items | oid c attrs];
      try reflexivity; [| |discriminate].
    + cbn [_iterencode]. simpl in N, D1, D2.
      apply iterencode_list_ext. intros y l I. apply IH.
      * apply (proj1 (forallb_forall native xs) N y I).
      * pose proof (depth_in_list y xs I). lia.
      * pose proof (depth_in_list y xs I). lia.
    + cbn [_iterencode]. simpl in N, D1, D2.
      apply iterencode_dict_ext. intros k y l I. apply IH.
      * apply (proj1 (forallb_forall _ items) N (k, y) I).
      * pose proof (depth_in_items k y items I). lia.
      * pose proof (depth_in_items k y items I). lia.
Qed.

(** One step of the walk at an instance: mark it, call [_default], go
    on with what it returned. *)
Lemma iterencode_instance
      (d : value -> result value) (_encoder : string -> string)
      (_indent : option string) (_key_separator _item_separator : string)
      (_sort_keys _skipkeys : bool) (fuel : nat) (markers : option (list nat))
      (oid : nat) (c : uclass) (attrs : list (string * value)) (level : nat) :
  _iterencode d _encoder _indent _key_separator _item_separator
    _sort_keys _skipkeys (S fuel) markers (VObj oid c attrs) level
  = match markers with
    | Some seen =>
        if existsb (Nat.eqb oid) seen
        then Raise (ValueError "Circular reference detected")
        else (o' <- d (VObj oid c attrs) ;;
              _iterencode d _encoder _indent _key_separator _item_separator
                _sort_keys _skipkeys fuel (Some (oid :: seen)) o' level)
    | None =>
        o' <- d (VObj oid c attrs) ;;
        _iterencode d _encoder _indent _key_separator _item_separator
          _sort_keys _skipkeys fuel None o' level
    end.
Proof. reflexivity. Qed.

(** The hook hands a value to the encoder registered for its type when no
    entry inserted earlier matches. *)
Lemma hook_calls_registered_encoder (reg : registry) (v : value) (f : callable) :
  getitem reg (type_of v) = Some f ->
  existsb (genuine_match v) (keys_before (type_of v) reg) = false ->
  _CustomEncoder_default reg v = call1 f v.
Proof.
  intros G B. unfold _CustomEncoder_default.
  rewrite (registry_loop_entry reg v (type_of v) f G
             (genuine_match_own_type v) B).
  reflexivity.
Qed.

(** What [iterencode] yields for a natively encodable value does not
    depend on the registry: the hook is never reached. *)
Lemma iterencode_native_ignores_registry (self : encoder) (reg reg' : registry)
      (v : value) :
  native v = true ->
  (depth v <=? recursion_limit)%nat = true ->
  call_iterencode self reg v None = call_iterencode self reg' v None.
Proof.
  intros N D. apply Nat.leb_le in D.
  unfold call_iterencode, JSONEncoder_iterencode, json_JSONEncoder_iterencode.
  destruct (klass self); apply iterencode_native; assumption.
Qed.

(** C2, amended.  Let [T] be a class without a native JSON form,
    registered with [f], such that no entry inserted before the entry of
    [T] matches the instance [v] of [T].  Then the [default] of a
    [_CustomEncoder] returns [f(v)]; and when [f(v)] is a natively
    encodable value within the recursion limit, [iterencode] yields for
    [v] the chunks it yields for [f(v)]. *)
Theorem registered_encoder_is_the_hook (reg : registry) (oid : nat)
        (c : uclass) (attrs : list (string * value)) (f : callable)
        (self : encoder) (v' : value) :
  getitem reg (User c) = Some f ->
  existsb (genuine_match (VObj oid c attrs)) (keys_before (User c) reg) = false ->
  klass self = _CustomEncoder ->
  self_default self = None ->
  call1 f (VObj oid c attrs) = Ok v' ->
  native v' = true ->
  (depth v' <? recursion_limit)%nat = true ->
  _CustomEncoder_default reg (VObj oid c attrs) = call1 f (VObj oid c attrs)
  /\ get_default self reg (VObj oid c attrs) = call1 f (VObj oid c attrs)
  /\ call_iterencode self reg (VObj oid c attrs) None
     = call_iterencode self reg v' None.
Proof.
  intros G B K D R N L.
  assert (H : _CustomEncoder_default reg (VObj oid c attrs)
              = call1 f (VObj oid c attrs))
    by (apply hook_calls_registered_encoder; assumption).
  assert (GD : get_default self reg = _CustomEncoder_default reg)
    by (unfold get_default; rewrite D, K; reflexivity).
  split; [exact H|split; [rewrite GD; exact H|]].
  apply Nat.ltb_lt in L.
  unfold call_iterencode, JSONEncoder_iterencode, json_JSONEncoder_iterencode.
  rewrite K, GD.
  remember (pred recursion_limit) as k eqn:Ek.
  assert (E : recursion_limit = S k) by (subst k; reflexivity).
  rewrite E in *. clear Ek E.
  rewrite iterencode_instance.
  destruct (self_check_circular self).
  - cbn [existsb]. rewrite H, R. cbn [bind].
    apply iterencode_native; [exact N | lia | lia].
  - rewrite H, R. cbn [bind].
    apply iterencode_native; [exact N | lia | lia].
Qed.

Lemma registered_encoder_is_the_hook_witness :
  call_iterencode _default_encoder Example.with_point Example.point_1_2 None
  = call_iterencode _default_encoder Example.with_point
      (VDict [(VStr "x", VInt 1); (VStr "y", VInt 2)]) None.
Proof.
  apply (registered_encoder_is_the_hook Example.with_point 1 Example.Point
           [("x", VInt 1); ("y", VInt 2)] (Fn Example.encode_point)
           _default_encoder (VDict [(VStr "x", VInt 1); (VStr "y", VInt 2)]));
    reflexivity.
Defined.

(** The chunks of [Point(1, 2)] under [encode_point], in order. *)
Lemma iterencode_point :
  call_iterencode _default_encoder Example.with_point Example.point_1_2 None
  = Ok ["{"; Text.quote ++ "x" ++ Text.quote; ": "; "1"; ", ";
        Text.quote ++ "y" ++ Text.quote; ": "; "2"; "}"]%string.
Proof. vm_compute. reflexivity. Qed.

(** * Further properties *)

(** ** [dumps] over all options *)

Lemma all_defaults_no_kw (o : options) (extra : string) (rest : list string) :
  kw o = extra :: rest -> all_defaults o = false.
Proof.
  intros K. unfold all_defaults. rewrite K. apply andb_false_r.
Qed.

Lemma all_defaults_no_cls (o : options) (c : encoder_class) :
  cls o = Some c -> all_defaults o = false.
Proof.
  intros C. unfold all_defaults. rewrite C. simpl.
  rewrite !andb_false_r. reflexivity.
Qed.

(** X1.  For a string, and no stray keyword, [dumps] returns the JSON
    string literal whatever class, formatting options and registry are in
    force; only [ensure_ascii] selects between the two escapings. *)
Theorem dumps_of_str (reg : registry) (s : string) (o : options) :
  kw o = [] ->
  dumps reg (VStr s) o
  = Ok (if ensure_ascii o then Text.encode_basestring_ascii s
        else Text.encode_basestring s).
Proof.
  intros K. unfold dumps. destruct (all_defaults o) eqn:A.
  - apply all_defaults_inv in A. subst o. apply encode_str.
  - unfold dumps_one_off, construct. rewrite K. cbn [bind].
    rewrite encode_str. reflexivity.
Qed.

Lemma dumps_of_str_witness :
  dumps Example.with_str (VStr "spam") (Example.with_cls JSONEncoder)
  = Ok (Text.encode_basestring_ascii "spam").
Proof.
  apply (dumps_of_str Example.with_str "spam" (Example.with_cls JSONEncoder)).
  reflexivity.
Defined.

(** X2.  For a value that is not a string, [dumps] raises [TypeError]
    under every combination of options in which the encoder class is
    [_CustomEncoder] (the default) or [JSONEncoder]. *)
Theorem dumps_of_non_str_raises (reg : registry) (v : value) (o : options) :
  is_str v = false ->
  cls o = None \/ cls o = Some JSONEncoder \/ cls o = Some _CustomEncoder ->
  is_TypeError (dumps reg v o).
Proof.
  intros S C. unfold dumps. destruct (all_defaults o) eqn:A.
  - rewrite encode_non_str; [eexists; reflexivity | discriminate | exact S].
  - unfold dumps_one_off, construct.
    destruct (kw o) as [|extra rest]; cbn [bind].
    + rewrite encode_non_str; [eexists; reflexivity | | exact S].
      unfold init_attributes. simpl.
      destruct C as [C|[C|C]]; rewrite C; discriminate.
    + eexists. reflexivity.
Qed.

Lemma dumps_of_non_str_raises_witness :
  is_TypeError
    (dumps initial_registry (VList [VInt 1; VNone])
       (Example.with_cls _CustomEncoder)).
Proof.
  apply (dumps_of_non_str_raises initial_registry (VList [VInt 1; VNone])
           (Example.with_cls _CustomEncoder)).
  - reflexivity.
  - right. right. reflexivity.
Defined.

(** X3.  A keyword that [dumps] does not name is passed on to the
    constructor of the encoder, which rejects it: [TypeError], for every
    value and every encoder class. *)
Theorem dumps_stray_keyword (reg : registry) (v : value) (o : options)
        (extra : string) (rest : list string) :
  kw o = extra :: rest ->
  dumps reg v o = Raise (TypeError (UnexpectedKeyword "__init__" extra)).
Proof.
  intros K. unfold dumps.
  rewrite (all_defaults_no_kw o extra rest K).
  unfold dumps_one_off, construct. rewrite K. reflexivity.
Qed.

Lemma dumps_stray_keyword_witness :
  dumps initial_registry (VStr "spam") (Example.with_keyword "colour")
  = Raise (TypeError (UnexpectedKeyword "__init__" "colour")).
Proof.
  apply (dumps_stray_keyword initial_registry (VStr "spam")
           (Example.with_keyword "colour") "colour" []).
  reflexivity.
Defined.

(** X4.  With an explicit encoder class, [dumps] does exactly what
    [json.dumps] does with the same arguments. *)
Theorem dumps_explicit_class_is_json_dumps (reg : registry) (v : value)
        (o : options) (c : encoder_class) :
  cls o = Some c ->
  dumps reg v o = json_dumps reg v o.
Proof.
  intros C. unfold dumps, json_dumps, dumps_one_off.
  rewrite (all_defaults_no_cls o c C), C. reflexivity.
Qed.

Lemma dumps_explicit_class_is_json_dumps_witness :
  dumps Example.with_point (VList [VInt 1]) (Example.with_cls json_JSONEncoder)
  = json_dumps Example.with_point (VList [VInt 1])
      (Example.with_cls json_JSONEncoder).
Proof.
  apply (dumps_explicit_class_is_json_dumps Example.with_point (VList [VInt 1])
           (Example.with_cls json_JSONEncoder) json_JSONEncoder).
  reflexivity.
Defined.




(** ** [dump] and its dispatch *)

Lemma concat_app (a b : list string) :
  String.concat "" (a ++ b) = (String.concat "" a ++ String.concat "" b)%string.
Proof.
  induction a as [|x xs IH]; simpl.
  - reflexivity.
  - destruct xs as [|y ys].
    + simpl. destruct b as [|z zs]; simpl.
      * induction x as [|c x' IHx]; simpl; [reflexivity|].
        rewrite <- IHx. reflexivity.
      * reflexivity.
    + simpl in *. rewrite IH.
      clear IH. induction x as [|c x' IHx]; simpl; [reflexivity|].
      rewrite IHx. reflexivity.
Qed.

(** X6.  When dispatch selects the body of [dump] and [json.dumps]
    returns a text, [dump] appends that text to the sink one character
    per [write], in order, after what the sink already holds. *)
Theorem dump_appends_json_dumps_text (reg : registry) (obj : value)
        (fp : stream) (kwargs : options) (text : string) :
  dispatch reg (type_of obj) = Some DumpBody ->
  json_dumps reg obj kwargs = Ok text ->
  dump reg obj fp kwargs = Ok (fp ++ Text.characters text)
  /\ contents (fp ++ Text.characters text) = (contents fp ++ text)%string.
Proof.
  intros D J. split.
  - unfold dump, call_impl, dump_body. rewrite D, J. cbn [bind].
    rewrite fold_left_write. reflexivity.
  - unfold contents. rewrite concat_app.
    change (String.concat "" (Text.characters text))
      with (Text.join (Text.characters text)).
    rewrite join_characters. reflexivity.
Qed.

Lemma dump_appends_json_dumps_text_witness :
  dump Example.with_point (VList [VInt 4; VNone]) ["# "] default_options
  = Ok (["# "] ++ Text.characters "[4, null]").
Proof.
  apply (dump_appends_json_dumps_text Example.with_point (VList [VInt 4; VNone])
           ["# "] default_options "[4, null]"); reflexivity.
Defined.

(** X7.  When the type of the value has itself an entry holding a
    one-parameter encoder function, [dump] raises [TypeError] for every
    sink and every option: dispatch calls that function with the
    arguments of [dump], which it cannot take. *)
Theorem dump_of_registered_type_raises (reg : registry) (v : value)
        (f : value -> result value) (fp : stream) (kwargs : options) :
  getitem reg (type_of v) = Some (Fn f) ->
  is_TypeError (dump reg v fp kwargs).
Proof.
  intros G. unfold dump, dispatch, call_impl. rewrite G.
  destruct (passed_keywords kwargs); eexists; reflexivity.
Qed.

Lemma dump_of_registered_type_raises_witness :
  is_TypeError
    (dump Example.with_point Example.point_1_2 []
       (Example.with_cls json_JSONEncoder)).
Proof.
  apply (dump_of_registered_type_raises Example.with_point Example.point_1_2
           Example.encode_point [] (Example.with_cls json_JSONEncoder)).
  reflexivity.
Defined.

Lemma mro_ends_in_object (t : pytype) : existsb is_object (mro t) = true.
Proof.
  destruct t; try reflexivity.
  simpl. rewrite existsb_app. simpl. apply orb_true_r.
Qed.

Lemma find_impl_falls_to_object (reg : registry) (l : list pytype)
      (impl : callable) :
  getitem reg object = Some impl ->
  forallb (fun t => is_object t
                    || match getitem reg t with None => true | Some _ => false end)
          l = true ->
  existsb is_object l = true ->
  _find_impl l reg = Some impl.
Proof.
  intros O. induction l as [|t rest IH]; simpl; intros A E.
  - discriminate.
  - apply andb_true_iff in A. destruct A as [At A].
    destruct (is_object t) eqn:Ob.
    + destruct t; try discriminate. rewrite O. reflexivity.
    + simpl in At, E. destruct (getitem reg t) eqn:G.
      * discriminate.
      * apply IH; assumption.
Qed.

(** X8.  When neither the type of the value nor any class of its
    linearisation other than [object] has an entry, and the [object]
    entry still holds the body, [dump] runs its body: [json.dumps], then
    the writes. *)
Theorem dump_of_unregistered_type_runs_body (reg : registry) (v : value)
        (fp : stream) (kwargs : options) :
  getitem reg object = Some DumpBody ->
  forallb (fun t => is_object t
                    || match getitem reg t with None => true | Some _ => false end)
          (mro (type_of v)) = true ->
  dump reg v fp kwargs = dump_body reg v fp kwargs.
Proof.
  intros O A. unfold dump, dispatch.
  assert (F : _find_impl (mro (type_of v)) reg = Some DumpBody)
    by (apply find_impl_falls_to_object; [exact O | exact A | apply mro_ends_in_object]).
  destruct (getitem reg (type_of v)) as [impl|] eqn:G.
  - (* the type itself is the head of its linearisation *)
    exfalso. destruct v; simpl in A, G; rewrite G in A; discriminate.
  - rewrite F. reflexivity.
Qed.

Lemma dump_of_unregistered_type_runs_body_witness :
  dump Example.with_point Example.a_blob [] default_options
  = dump_body Example.with_point Example.a_blob [] default_options.
Proof.
  apply (dump_of_unregistered_type_runs_body Example.with_point Example.a_blob
           [] default_options); reflexivity.
Defined.

(** ** The registry under registration *)

(** X9.  Registration keeps the order of the registry: a type that has an
    entry keeps its place, a new type goes to the end. *)
Theorem register_keeps_order (T : pytype) (f : callable) (reg : registry) :
  keys (snd (register T f reg))
  = if existsb (PyType.eqb T) (keys reg) then keys reg else keys reg ++ [T].
Proof.
  unfold register. simpl. induction reg as [|[k v] rest IH]; simpl.
  - reflexivity.
  - destruct (PyType.eqb T k) eqn:E; simpl.
    + reflexivity.
    + rewrite IH. destruct (existsb (PyType.eqb T) (keys rest)); reflexivity.
Qed.

Lemma existsb_eqb_In (T : pytype) (l : list pytype) :
  existsb (PyType.eqb T) l = false -> ~ In T l.
Proof.
  intros H I. assert (X : existsb (PyType.eqb T) l = true).
  { apply existsb_exists. exists T. split; [exact I | apply pytype_eqb_refl]. }
  congruence.
Qed.

Lemma register_keeps_NoDup (T : pytype) (f : callable) (reg : registry) :
  NoDup (keys reg) -> NoDup (keys (snd (register T f reg))).
Proof.
  intros N. rewrite register_keeps_order.
  destruct (existsb (PyType.eqb T) (keys reg)) eqn:E.
  - exact N.
  - apply NoDup_app.
    + exact N.
    + constructor; [intros [] | constructor].
    + intros x I [<-|[]]. revert I. apply existsb_eqb_In. exact E.
Qed.

(** X10.  After any run of registrations since import, the registry
    still has its [object] entry and holds each type once. *)
Theorem registry_invariant (rs : list (pytype * callable)) :
  existsb (PyType.eqb object) (keys (register_all rs initial_registry)) = true
  /\ NoDup (keys (register_all rs initial_registry)).
Proof.
  split.
  - apply register_all_keeps_object. reflexivity.
  - assert (G : forall reg, NoDup (keys reg) -> NoDup (keys (register_all rs reg))).
    { induction rs as [|[t f] rs IH]; simpl; intros reg N.
      - exact N.
      - apply IH. apply (register_keeps_NoDup t f reg N). }
    apply G. simpl. constructor; [intros [] | constructor].
Qed.

(** X11.  Looking a type up after a registration: the registered type
    yields the new function, every other type what it yielded before. *)
Theorem lookup_after_register (T T' : pytype) (f : callable) (reg : registry) :
  getitem (snd (register T f reg)) T'
  = if PyType.eqb T' T then Some f else getitem reg T'.
Proof.
  destruct (PyType.eqb T' T) eqn:E.
  - apply pytype_eqb_eq in E. subst T'. apply getitem_setitem_same.
  - apply getitem_setitem_other. exact E.
Qed.

(** ** The hook under registration *)

Lemma registry_loop_setitem_unrelated (reg : registry) (o : value)
      (T : pytype) (f : callable) :
  genuine_match o T = false ->
  registry_loop (setitem reg T f) o = registry_loop reg o.
Proof.
  intros M. induction reg as [|[k v] rest IH]; simpl.
  - rewrite M. reflexivity.
  - destruct (PyType.eqb T k) eqn:E; simpl.
    + apply pytype_eqb_eq in E. subst k. rewrite M. reflexivity.
    + rewrite IH. reflexivity.
Qed.

(** X12.  Registering, or registering again, a type of which the value is
    not an instance, or [object] itself, changes nothing in what
    [_CustomEncoder.default] does with that value. *)
Theorem unrelated_registration_is_invisible (reg : registry) (o : value)
        (T : pytype) (f : callable) :
  genuine_match o T = false ->
  _CustomEncoder_default (snd (register T f reg)) o
  = _CustomEncoder_default reg o.
Proof.
  intros M. unfold _CustomEncoder_default, register. simpl.
  rewrite registry_loop_setitem_unrelated by exact M. reflexivity.
Qed.

Lemma unrelated_registration_is_invisible_witness :
  _CustomEncoder_default
    (snd (register object (Fn (Example.tag "any")) Example.with_point))
    Example.point_1_2
  = _CustomEncoder_default Example.with_point Example.point_1_2.
Proof.
  apply (unrelated_registration_is_invisible Example.with_point
           Example.point_1_2 object (Fn (Example.tag "any"))).
  reflexivity.
Defined.

Lemma registry_loop_app_match (pre post : registry) (o : value) :
  existsb (genuine_match o) (keys pre) = true ->
  registry_loop (pre ++ post) o = registry_loop pre o.
Proof.
  induction pre as [|[t h] rest IH]; simpl; intros H.
  - discriminate.
  - destruct (genuine_match o t); [reflexivity|].
    apply IH. exact H.
Qed.

(** X13.  Once some entry matches a value, registering a type that had no
    entry, however specific, does not change the encoder the value is
    handed to: the new entry comes last. *)
Theorem later_registration_never_overrides (reg : registry) (o : value)
        (T : pytype) (f : callable) :
  existsb (genuine_match o) (keys reg) = true ->
  existsb (PyType.eqb T) (keys reg) = false ->
  _CustomEncoder_default (snd (register T f reg)) o
  = _CustomEncoder_default reg o.
Proof.
  intros M F. unfold _CustomEncoder_default, register. simpl.
  rewrite setitem_fresh by exact F.
  rewrite registry_loop_app_match by exact M. reflexivity.
Qed.

Lemma later_registration_never_overrides_witness :
  _CustomEncoder_default
    (snd (register (User Example.Square) (Fn (Example.tag "square"))
            Example.shape_then_polygon))
    Example.a_square
  = _CustomEncoder_default Example.shape_then_polygon Example.a_square.
Proof.
  apply (later_registration_never_overrides Example.shape_then_polygon
           Example.a_square (User Example.Square) (Fn (Example.tag "square")));
    reflexivity.
Defined.

(** ** [iterencode] *)



(** X15.  With [check_circular] on, an instance that the hook maps to
    itself makes [iterencode] of a [_CustomEncoder] raise
    [ValueError: Circular reference detected]. *)
Theorem self_returning_encoder_is_circular (self : encoder) (reg : registry)
        (oid : nat) (c : uclass) (attrs : list (string * value)) :
  klass self = _CustomEncoder ->
  self_default self = None ->
  self_check_circular self = true ->
  _CustomEncoder_default reg (VObj oid c attrs) = Ok (VObj oid c attrs) ->
  call_iterencode self reg (VObj oid c attrs) None
  = Raise (ValueError "Circular reference detected").
Proof.
  intros K D C H.
  assert (GD : get_default self reg = _CustomEncoder_default reg)
    by (unfold get_default; rewrite D, K; reflexivity).
  unfold call_iterencode, JSONEncoder_iterencode, json_JSONEncoder_iterencode.
  rewrite K, GD, C.
  remember (pred (pred recursion_limit)) as k eqn:Ek.
  assert (E : recursion_limit = S (S k)) by (subst k; reflexivity).
  rewrite E. clear Ek E.
  rewrite iterencode_instance. cbn [existsb]. rewrite H. cbn [bind].
  rewrite iterencode_instance. cbn [existsb]. rewrite Nat.eqb_refl.
  reflexivity.
Qed.

Lemma self_returning_encoder_is_circular_witness :
  call_iterencode _default_encoder
    (snd (register (User Example.Blob) (Fn Example.same) initial_registry))
    Example.a_blob None
  = Raise (ValueError "Circular reference detected").
Proof.
  apply (self_returning_encoder_is_circular _default_encoder
           (snd (register (User Example.Blob) (Fn Example.same) initial_registry))
           3 Example.Blob []); reflexivity.
Defined.

Lemma walk_self_returning_exhausts
      (d : value -> result value) (_encoder : string -> string)
      (_indent : option string) (_key_separator _item_separator : string)
      (_sort_keys _skipkeys : bool) (oid : nat) (c : uclass)
      (attrs : list (string * value)) (level : nat) :
  d (VObj oid c attrs) = Ok (VObj oid c attrs) ->
  forall fuel,
  _iterencode d _encoder _indent _key_separator _item_separator
    _sort_keys _skipkeys fuel None (VObj oid c attrs) level
  = Raise RecursionError.
Proof.
  intros H. induction fuel as [|fuel IH].
  - reflexivity.
  - rewrite iterencode_instance, H. cbn [bind]. exact IH.
Qed.

(** X16.  With [check_circular] off, the same instance makes
    [iterencode] run into the recursion limit: [RecursionError]. *)
Theorem self_returning_encoder_unchecked (self : encoder) (reg : registry)
        (oid : nat) (c : uclass) (attrs : list (string * value)) :
  klass self = _CustomEncoder ->
  self_default self = None ->
  self_check_circular self = false ->
  _CustomEncoder_default reg (VObj oid c attrs) = Ok (VObj oid c attrs) ->
  call_iterencode self reg (VObj oid c attrs) None = Raise RecursionError.
Proof.
  intros K D C H.
  assert (GD : get_default self reg = _CustomEncoder_default reg)
    by (unfold get_default; rewrite D, K; reflexivity).
  unfold call_iterencode, JSONEncoder_iterencode, json_JSONEncoder_iterencode.
  rewrite K, GD, C.
  apply walk_self_returning_exhausts. exact H.
Qed.

Lemma self_returning_encoder_unchecked_witness :
  call_iterencode
    (init_attributes _CustomEncoder Example.without_check_circular)
    (snd (register (User Example.Blob) (Fn Example.same) initial_registry))
    Example.a_blob None
  = Raise RecursionError.
Proof.
  apply (self_returning_encoder_unchecked
           (init_attributes _CustomEncoder Example.without_check_circular)
           (snd (register (User Example.Blob) (Fn Example.same) initial_registry))
           3 Example.Blob []); reflexivity.
Defined.

(** X17.  On a natively encodable value within the recursion limit, the
    [iterencode] of a [_CustomEncoder] or [JSONEncoder] yields exactly
    the chunks that [json.JSONEncoder] built with the same options
    yields. *)
Theorem iterencode_native_as_json (k : encoder_class) (o : options)
        (reg : registry) (v : value) :
  native v = true ->
  (depth v <=? recursion_limit)%nat = true ->
  call_iterencode (init_attributes k o) reg v None
  = call_iterencode (init_attributes json_JSONEncoder o) reg v None.
Proof.
  intros N D. apply Nat.leb_le in D.
  unfold call_iterencode, JSONEncoder_iterencode, json_JSONEncoder_iterencode.
  destruct k;
    cbn [klass init_attributes self_check_circular self_ensure_ascii
         self_indent self_key_separator self_item_separator self_sort_keys
         self_skipkeys];
    apply iterencode_native; assumption.
Qed.

Lemma iterencode_native_as_json_witness :
  call_iterencode (init_attributes _CustomEncoder default_options)
    Example.with_point (VDict [(VStr "k", VList [VBool true; VNone])]) None
  = call_iterencode (init_attributes json_JSONEncoder default_options)
      Example.with_point (VDict [(VStr "k", VList [VBool true; VNone])]) None.
Proof.
  apply (iterencode_native_as_json _CustomEncoder default_options
           Example.with_point (VDict [(VStr "k", VList [VBool true; VNone])]));
    reflexivity.
Defined.

(** X18.  Registrations never change what [iterencode] yields for a
    natively encodable value: also with an encoder registered for [str],
    [int], [list] or [dict], such values are encoded natively. *)
Theorem registrations_never_reach_native_values (self : encoder)
        (rs : list (pytype * callable)) (reg : registry) (v : value) :
  native v = true ->
  (depth v <=? recursion_limit)%nat = true ->
  call_iterencode self (register_all rs reg) v None
  = call_iterencode self reg v None.
Proof.
  intros N D. apply iterencode_native_ignores_registry; assumption.
Qed.

Lemma registrations_never_reach_native_values_witness :
  call_iterencode _default_encoder
    (register_all [(list_, Fn (Example.tag "list")); (int_, Fn (Example.tag "int"))]
       initial_registry)
    (VList [VInt 1; VInt 2]) None
  = call_iterencode _default_encoder initial_registry (VList [VInt 1; VInt 2]) None.
Proof.
  apply (registrations_never_reach_native_values _default_encoder
           [(list_, Fn (Example.tag "list")); (int_, Fn (Example.tag "int"))]
           initial_registry (VList [VInt 1; VInt 2])); reflexivity.
Defined.

(** X19.  An exception raised by the registered encoder function comes
    out of [iterencode] as it is: the hook returns [handler(o)] without
    catching anything. *)
Theorem encoder_exception_surfaces (self : encoder) (reg : registry)
        (oid : nat) (c : uclass) (attrs : list (string * value))
        (f : callable) (e : exn) :
  klass self = _CustomEncoder ->
  self_default self = None ->
  getitem reg (User c) = Some f ->
  existsb (genuine_match (VObj oid c attrs)) (keys_before (User c) reg) = false ->
  call1 f (VObj oid c attrs) = Raise e ->
  call_iterencode self reg (VObj oid c attrs) None = Raise e.
Proof.
  intros K D G B R.
  assert (H : _CustomEncoder_default reg (VObj oid c attrs) = Raise e)
    by (rewrite <- R; apply hook_calls_registered_encoder; assumption).
  assert (GD : get_default self reg = _CustomEncoder_default reg)
    by (unfold get_default; rewrite D, K; reflexivity).
  unfold call_iterencode, JSONEncoder_iterencode, json_JSONEncoder_iterencode.
  rewrite K, GD.
  remember (pred recursion_limit) as k eqn:Ek.
  assert (E : recursion_limit = S k) by (subst k; reflexivity).
  rewrite E. clear Ek E.
  rewrite iterencode_instance.
  destruct (self_check_circular self); cbn [existsb]; rewrite H; reflexivity.
Qed.

Lemma encoder_exception_surfaces_witness :
  call_iterencode _default_encoder
    (snd (register (User Example.Blob) (Fn Example.encode_point) initial_registry))
    Example.a_blob None
  = Raise (AttributeError "x").
Proof.
  apply (encoder_exception_surfaces _default_encoder
           (snd (register (User Example.Blob) (Fn Example.encode_point)
                   initial_registry))
           3 Example.Blob [] (Fn Example.encode_point) (AttributeError "x"));
    reflexivity.
Defined.

Lemma json_dumps_of_str (reg : registry) (s : string) (o : options) :
  kw o = [] ->
  json_dumps reg (VStr s) o
  = Ok (if ensure_ascii o then Text.encode_basestring_ascii s
        else Text.encode_basestring s).
Proof.
  intros K. unfold json_dumps. destruct (all_defaults o) eqn:A.
  - apply all_defaults_inv in A. subst o. apply encode_str.
  - unfold construct. rewrite K. cbn [bind].
    rewrite encode_str. reflexivity.
Qed.

(** X20.  For a string, when [str] has no entry of its own in the
    registry and no stray keyword is passed, [dump] writes to an empty
    sink exactly the text that [dumps] returns, character by character. *)
Theorem dump_of_str_writes_dumps_text (reg : registry) (s : string)
        (o : options) :
  kw o = [] ->
  getitem reg str_ = None ->
  getitem reg object = Some DumpBody ->
  exists text,
    dumps reg (VStr s) o = Ok text
    /\ dump reg (VStr s) [] o = Ok (Text.characters text)
    /\ contents (Text.characters text) = text.
Proof.
  intros K S O.
  exists (if ensure_ascii o then Text.encode_basestring_ascii s
          else Text.encode_basestring s).
  split; [apply dumps_of_str; exact K|].
  assert (D : dispatch reg (type_of (VStr s)) = Some DumpBody)
    by (unfold dispatch; simpl; rewrite S, O; reflexivity).
  destruct (dump_appends_json_dumps_text reg (VStr s) [] o _ D
              (json_dumps_of_str reg s o K)) as [W C].
  split; [exact W | exact C].
Qed.

Lemma dump_of_str_writes_dumps_text_witness :
  exists text,
    dumps Example.with_point (VStr "spam") default_options = Ok text
    /\ dump Example.with_point (VStr "spam") [] default_options
       = Ok (Text.characters text)
    /\ contents (Text.characters text) = text.
Proof.
  apply (dump_of_str_writes_dumps_text Example.with_point "spam"
           default_options); reflexivity.
Defined.

(** X21.  For an instance that no entry of the registry matches other
    than the [object] entry, [_CustomEncoder.default] raises the native
    "not JSON serializable" error, and so does the [iterencode] of a
    [_CustomEncoder] built without a [default] function. *)
Theorem unmatched_instance_is_not_serializable (self : encoder)
        (reg : registry) (oid : nat) (c : uclass)
        (attrs : list (string * value)) :
  klass self = _CustomEncoder ->
  self_default self = None ->
  existsb (genuine_match (VObj oid c attrs)) (keys reg) = false ->
  _CustomEncoder_default reg (VObj oid c attrs)
  = Raise (TypeError (NotSerializable (uname c)))
  /\ call_iterencode self reg (VObj oid c attrs) None
     = Raise (TypeError (NotSerializable (uname c))).
Proof.
  intros K D U.
  destruct (hook_without_match reg oid c attrs U) as [_ H].
  split; [exact H|].
  assert (GD : get_default self reg = _CustomEncoder_default reg)
    by (unfold get_default; rewrite D, K; reflexivity).
  unfold call_iterencode, JSONEncoder_iterencode, json_JSONEncoder_iterencode.
  rewrite K, GD.
  remember (pred recursion_limit) as k eqn:Ek.
  assert (E : recursion_limit = S k) by (subst k; reflexivity).
  rewrite E. clear Ek E.
  rewrite iterencode_instance.
  destruct (self_check_circular self); cbn [existsb]; rewrite H; reflexivity.
Qed.

Lemma unmatched_instance_is_not_serializable_witness :
  call_iterencode _default_encoder Example.with_point Example.a_blob None
  = Raise (TypeError (NotSerializable "Blob")).
Proof.
  apply (unmatched_instance_is_not_serializable _default_encoder
           Example.with_point 3 Example.Blob []); reflexivity.
Defined.

(** X22.  The [iterencode] of a [JSONEncoder] built without a [default]
    function raises the native "not JSON serializable" error for every
    instance, whatever the registry holds: [JSONEncoder.default] goes
    straight to the [default] of [json.JSONEncoder]. *)
Theorem JSONEncoder_iterencode_ignores_registry (self : encoder)
        (reg : registry) (oid : nat) (c : uclass)
        (attrs : list (string * value)) :
  klass self = JSONEncoder ->
  self_default self = None ->
  get_default self reg (VObj oid c attrs)
  = Raise (TypeError (NotSerializable (uname c)))
  /\ call_iterencode self reg (VObj oid c attrs) None
     = Raise (TypeError (NotSerializable (uname c))).
Proof.
  intros K D.
  assert (GD : get_default self reg = JSONEncoder_default)
    by (unfold get_default; rewrite D, K; reflexivity).
  split; [rewrite GD; reflexivity|].
  unfold call_iterencode, JSONEncoder_iterencode, json_JSONEncoder_iterencode.
  rewrite K, GD.
  remember (pred recursion_limit) as k eqn:Ek.
  assert (E : recursion_limit = S k) by (subst k; reflexivity).
  rewrite E. clear Ek E.
  rewrite iterencode_instance.
  destruct (self_check_circular self); reflexivity.
Qed.

Lemma JSONEncoder_iterencode_ignores_registry_witness :
  call_iterencode (init_attributes JSONEncoder (Example.with_cls JSONEncoder))
    Example.with_point Example.point_1_2 None
  = Raise (TypeError (NotSerializable "Point")).
Proof.
  apply (JSONEncoder_iterencode_ignores_registry
           (init_attributes JSONEncoder (Example.with_cls JSONEncoder))
           Example.with_point 1 Example.Point [("x", VInt 1); ("y", VInt 2)]);
    reflexivity.
Defined.
